(** * The employee analytics dashboard (analysis.py)

    A shallow embedding of the dashboard script: the loader [load_data], the
    sidebar with its session state and the reset button, the filter that
    produces [filtered_df], the three KPIs, the chart aggregations of the
    three tabs and the export.

    Conventions.
    - A pandas frame is a list of column labels and a list of rows; a row is
      a record.  The columns have the types of the input file: identifier,
      years of experience and salary are integers, department, job role,
      city and gender are strings.  The attrition cell is a string or a
      missing value (an object column as [read_csv] produces it).
    - The loader is modelled on any file, whatever columns it has.  The
      script after the loader is modelled on tables that have the columns
      it reads by name (department, job role, city, gender, years of
      experience, salary, attrition); the identifier is read by no line.
    - Python exceptions are values of [exn]; code that may raise lives in
      [result], and the script itself in [script], which also threads the
      Streamlit session state and the elements written to the page.
    - Floating-point results are modelled by exact numbers: rationals for
      the KPIs, reals for the correlation coefficients; [nan] and [None]
      stand for NaN.  Rounding is not modelled.
    - The definitions of this first part read a table through the types
      the columns have in the shipped file.  The module [Dyn] further down
      models the script from the sidebar on over any table: absent
      columns, missing cells in any column, columns selected by dtype, the
      bound of the slider, and float64 results and unspecified orders as
      taken from the library.
    - Page chrome (page configuration, style sheet, colours, columns and
      containers) is left out, and labels are given without their markup
      and pictographs.  What plotly draws from the data it is handed is not
      modelled: a chart element carries the data. *)

From Stdlib Require Import List String Ascii Bool ZArith QArith Qcanon Reals.
From Stdlib Require Import Lia Lra Permutation Sorted.
From Stdlib Require OrderedTypeEx.
Import ListNotations.

Local Open Scope string_scope.
Local Open Scope list_scope.
Local Open Scope Z_scope.

(* ------------------------------------------------------------------ *)
(** ** Python: exceptions and numbers *)

Inductive exn :=
| FileNotFoundError
| ParserError
| KeyError (label : string)
| ValueError
| ZeroDivisionError
| StopException
| RerunException.

Inductive result (A : Type) :=
| Ok (a : A)
| Raise (e : exn).

Arguments Ok {A} a.
Arguments Raise {A} e.

Definition rbind {A B} (m : result A) (k : A -> result B) : result B :=
  match m with
  | Ok a => k a
  | Raise e => Raise e
  end.

Fixpoint rmap {A B} (f : A -> result B) (l : list A) : result (list B) :=
  match l with
  | [] => Ok []
  | x :: t => rbind (f x) (fun y => rbind (rmap f t) (fun ys => Ok (y :: ys)))
  end.

(** A Python float that came out of an aggregation: NaN or a number. *)
Inductive float :=
| nan
| fin (q : Q).

(** [a / b] on integers (true division). *)
Definition truediv (a b : Z) : result Q :=
  if b =? 0 then Raise ZeroDivisionError else Ok (inject_Z a / inject_Z b)%Q.

(** [int(x)]: truncation towards zero; NaN cannot be converted. *)
Definition int (x : float) : result Z :=
  match x with
  | nan => Raise ValueError
  | fin q => Ok (Z.quot (Qnum q) (Z.pos (Qden q)))
  end.

(* ------------------------------------------------------------------ *)
(** ** The table *)

(** An object cell: a string or a missing value. *)
Inductive cell :=
| Str (s : string)
| NaN.

(** [x == s] for a cell [x] and a string literal [s]. *)
Definition cell_eq_str (x : cell) (s : string) : bool :=
  match x with
  | Str t => String.eqb t s
  | NaN => false
  end.

(** One line of the input file. *)
Record Line := mkLine {
  EmployeeID : Z;
  Department : string;
  JobRole : string;
  City : string;
  Gender : string;
  YearsOfExperience : Z;
  SalaryINR : Z;
  Attrition : cell
}.

(** One row of the loaded table: the line and the derived column. *)
Record Employee := mkEmployee {
  line :> Line;
  AttritionNumeric : Z
}.

(** What [read_csv] returns: the header and the lines.  A field of a line
    whose label is not in the header stands for nothing; the loader reads a
    column only through [has_column]. *)
Record RawFrame := mkRaw {
  raw_columns : list string;
  raw_lines : list Line
}.

Record DataFrame := mkFrame {
  columns : list string;
  rows : list Employee
}.

Definition mem (s : string) (l : list string) : bool :=
  existsb (String.eqb s) l.

(** What is found at a path. *)
Inductive file :=
| Absent
| Unparsable
| Table (t : RawFrame).

Definition filesystem := string -> file.

Definition read_csv (fs : filesystem) (file_path : string) : result RawFrame :=
  match fs file_path with
  | Absent => Raise FileNotFoundError
  | Unparsable => Raise ParserError
  | Table t => Ok t
  end.

(** [df[label]] raises [KeyError] when the label is not a column. *)
Definition has_column (t : RawFrame) (label : string) : result unit :=
  if mem label (raw_columns t) then Ok tt else Raise (KeyError label).

(** [df[label] = ...] replaces the column in place or appends it. *)
Definition set_column (cols : list string) (label : string) : list string :=
  if mem label cols then cols else cols ++ [label].

(* ------------------------------------------------------------------ *)
(** ** Streamlit: session state, page elements, the script monad *)

Record SessionState := mkSession {
  selected_departments : option (list string);
  selected_cities : option (list string);
  selected_exp : option (Z * Z)
}.

Inductive metric_value :=
| count_value (n : Z)
| percent_value (q : Q)
| currency_value (x : float).

Inductive figure :=
| bar_attrition (data : list (string * string * nat))
| bar_roles (data : list (string * nat))
| pie_gender (data : list (string * nat))
| histogram (x : list Z) (nbins : nat)
| scatter (points : list (Z * Z * string * string * string))
| imshow (labels : list string) (z : list (list (option R))).

Inductive element :=
| st_error (msg : string)
| st_info (msg : string)
| st_warning (msg : string)
| st_markdown (body : string)
| st_header (body : string)
| st_subheader (body : string)
| st_metric (label : string) (value : metric_value)
| st_plotly_chart (fig : figure)
| st_dataframe (data : DataFrame)
| st_download_button (data : DataFrame).

Record world := mkWorld {
  session : SessionState;
  page : list element
}.

Definition script (A : Type) := world -> result A * world.

Definition ret {A} (a : A) : script A := fun w => (Ok a, w).

Definition bind {A B} (m : script A) (k : A -> script B) : script B :=
  fun w =>
    match m w with
    | (Ok a, w') => k a w'
    | (Raise e, w') => (Raise e, w')
    end.

Notation "x <- m ;; k" := (bind m (fun x => k))
  (at level 61, m at next level, right associativity).
Notation "m ;;; k" := (bind m (fun _ => k))
  (at level 61, right associativity).

Definition raise {A} (e : exn) : script A := fun w => (Raise e, w).

Definition lift {A} (r : result A) : script A := fun w => (r, w).

Definition emit (x : element) : script unit :=
  fun w => (Ok tt, mkWorld (session w) (page w ++ [x])).

Definition get_session : script SessionState := fun w => (Ok (session w), w).

Definition put_session (s : SessionState) : script unit :=
  fun w => (Ok tt, mkWorld s (page w)).

(** [try: body except FileNotFoundError: handler]. *)
Definition except_FileNotFoundError {A} (body handler : script A) : script A :=
  fun w =>
    match body w with
    | (Raise FileNotFoundError, w') => handler w'
    | r => r
    end.

(* ------------------------------------------------------------------ *)
(** ** Data loading (lines 96-113) *)

(** [f"Error: The file '{file_path}' was not found."] *)
Definition not_found_message (file_path : string) : string :=
  String.append "Error: The file '" (String.append file_path "' was not found.").

(** [lambda x: 1 if x == 'Yes' else 0] *)
Definition attrition_numeric (x : cell) : Z :=
  if cell_eq_str x "Yes" then 1 else 0.

Definition load_data (fs : filesystem) (file_path : string)
  : script (option DataFrame) :=
  except_FileNotFoundError
    (t <- lift (read_csv fs file_path) ;;
     lift (has_column t "Attrition") ;;;
     ret (Some (mkFrame (set_column (raw_columns t) "AttritionNumeric")
                        (map (fun l => mkEmployee l (attrition_numeric (Attrition l)))
                             (raw_lines t)))))
    (emit (st_error (not_found_message file_path)) ;;;
     emit (st_info "Please ensure the CSV file is in the same directory as the script.") ;;;
     ret None).

(** Lines 109-113: load, and stop when nothing was loaded. *)
Definition startup (fs : filesystem) : script DataFrame :=
  df <- load_data fs "mock_imved_tech_data.csv" ;;
  match df with
  | None => raise StopException
  | Some d => ret d
  end.

(* ------------------------------------------------------------------ *)
(** ** Series operations used by the script *)

(** The distinct values of a list in order of first appearance. *)
Fixpoint uniq {A} (eqb : A -> A -> bool) (l : list A) : list A :=
  match l with
  | [] => []
  | x :: t => x :: filter (fun y => negb (eqb x y)) (uniq eqb t)
  end.

(** [Series.unique()] *)
Definition unique (l : list string) : list string := uniq String.eqb l.

(** Stable insertion sort, for [groupby] keys and [sort_values]. *)
Fixpoint insert {A} (leb : A -> A -> bool) (x : A) (l : list A) : list A :=
  match l with
  | [] => [x]
  | y :: t => if leb x y then x :: y :: t else y :: insert leb x t
  end.

Fixpoint sort {A} (leb : A -> A -> bool) (l : list A) : list A :=
  match l with
  | [] => []
  | x :: t => insert leb x (sort leb t)
  end.

(** [Series.min()] and [Series.max()]: NaN on an empty column. *)
Definition Series_min (l : list Z) : float :=
  match l with
  | [] => nan
  | x :: t => fin (inject_Z (fold_right Z.min x t))
  end.

Definition Series_max (l : list Z) : float :=
  match l with
  | [] => nan
  | x :: t => fin (inject_Z (fold_right Z.max x t))
  end.

Definition Series_sum (l : list Z) : Z := fold_right Z.add 0 l.

(** [Series.mean()]: NaN on an empty column. *)
Definition Series_mean (l : list Z) : float :=
  match l with
  | [] => nan
  | _ => fin (inject_Z (Series_sum l) / inject_Z (Z.of_nat (List.length l)))%Q
  end.

(** [Series.isin(values)] at one row. *)
Definition isin (x : string) (values : list string) : bool := mem x values.

(** [Series.between(left, right)] at one row: both ends included. *)
Definition between (x left right : Z) : bool := (left <=? x) && (x <=? right).

(* ------------------------------------------------------------------ *)
(** ** Sidebar (lines 120-158) *)

Record Selection := mkSelection {
  sel_departments : list string;
  sel_cities : list string;
  sel_exp : Z * Z
}.

Definition all_departments (df : DataFrame) : list string :=
  unique (map (fun r : Employee => Department r) (rows df)).

Definition all_cities (df : DataFrame) : list string :=
  unique (map (fun r : Employee => City r) (rows df)).

(** [(int(df['YearsOfExperience'].min()), int(df['YearsOfExperience'].max()))] *)
Definition exp_bounds (df : DataFrame) : result (Z * Z) :=
  let col := map (fun r : Employee => YearsOfExperience r) (rows df) in
  rbind (int (Series_min col)) (fun lo =>
  rbind (int (Series_max col)) (fun hi => Ok (lo, hi))).

(** The handler of the reset button (lines 125-128). *)
Definition reset_filters (df : DataFrame) : script unit :=
  s <- get_session ;;
  put_session (mkSession (Some (all_departments df)) (selected_cities s) (selected_exp s)) ;;;
  s <- get_session ;;
  put_session (mkSession (selected_departments s) (Some (all_cities df)) (selected_exp s)) ;;;
  b <- lift (exp_bounds df) ;;
  s <- get_session ;;
  put_session (mkSession (selected_departments s) (selected_cities s) (Some b)) ;;;
  raise RerunException.

(** Lines 131-136: fill the keys that are not in the session state. *)
Definition init_session (df : DataFrame) : script unit :=
  s <- get_session ;;
  match selected_departments s with
  | None => put_session (mkSession (Some (all_departments df)) (selected_cities s) (selected_exp s))
  | Some _ => ret tt
  end ;;;
  s <- get_session ;;
  match selected_cities s with
  | None => put_session (mkSession (selected_departments s) (Some (all_cities df)) (selected_exp s))
  | Some _ => ret tt
  end ;;;
  s <- get_session ;;
  match selected_exp s with
  | None =>
      b <- lift (exp_bounds df) ;;
      put_session (mkSession (selected_departments s) (selected_cities s) (Some b))
  | Some _ => ret tt
  end.

(** A widget with a key returns the value the session state holds for it. *)
Definition widget {A} (key : SessionState -> option A) (label : string) : script A :=
  s <- get_session ;;
  match key s with
  | Some v => ret v
  | None => raise (KeyError label)
  end.

Definition sidebar (df : DataFrame) (reset_clicked : bool) : script Selection :=
  emit (st_header "Filter Options") ;;;
  (if reset_clicked then reset_filters df else ret tt) ;;;
  init_session df ;;;
  deps <- widget selected_departments "selected_departments" ;;
  cities <- widget selected_cities "selected_cities" ;;
  lift (exp_bounds df) ;;;
  exp <- widget selected_exp "selected_exp" ;;
  ret (mkSelection deps cities exp).

(* ------------------------------------------------------------------ *)
(** ** The filtered view (lines 161-165) *)

Definition keep (s : Selection) (r : Employee) : bool :=
  isin (Department r) (sel_departments s)
  && isin (City r) (sel_cities s)
  && between (YearsOfExperience r) (fst (sel_exp s)) (snd (sel_exp s)).

Definition filtered_df (df : DataFrame) (s : Selection) : DataFrame :=
  mkFrame (columns df) (filter (keep s) (rows df)).

(* ------------------------------------------------------------------ *)
(** ** Key performance indicators (lines 168-180) *)

(** [filtered_df.shape[0]] *)
Definition total_employees (v : DataFrame) : Z :=
  Z.of_nat (List.length (rows v)).

(** [filtered_df[filtered_df['Attrition'] == 'Yes'].shape[0]] *)
Definition attrition_count (v : DataFrame) : Z :=
  Z.of_nat (List.length
    (filter (fun r : Employee => cell_eq_str (Attrition r) "Yes") (rows v))).

(** [(attrition_count / total_employees) * 100 if total_employees > 0 else 0] *)
Definition attrition_rate (v : DataFrame) : result Q :=
  if 0 <? total_employees v
  then rbind (truediv (attrition_count v) (total_employees v))
             (fun q => Ok (q * 100)%Q)
  else Ok 0%Q.

(** [filtered_df['SalaryINR'].mean()] *)
Definition avg_salary (v : DataFrame) : float :=
  Series_mean (map (fun r : Employee => SalaryINR r) (rows v)).

Definition kpis (v : DataFrame) : script unit :=
  emit (st_header "Key Performance Indicators") ;;;
  rate <- lift (attrition_rate v) ;;
  emit (st_metric "Total Employees" (count_value (total_employees v))) ;;;
  emit (st_metric "Attrition Rate" (percent_value rate)) ;;;
  emit (st_metric "Average Salary (INR)" (currency_value (avg_salary v))).

(* ------------------------------------------------------------------ *)
(** ** Tab 1: department and role insights (lines 193-225) *)

(** The key of a row for [groupby(['Department', 'Attrition'])]; a row with
    a missing key value belongs to no group ([dropna=True], the default). *)
Definition group_key (r : Employee) : option (string * string) :=
  match Attrition r with
  | Str a => Some (Department r, a)
  | NaN => None
  end.

Definition group_keys (l : list Employee) : list (string * string) :=
  flat_map (fun r => match group_key r with Some k => [k] | None => [] end) l.

Definition key_eqb (a b : string * string) : bool :=
  String.eqb (fst a) (fst b) && String.eqb (snd a) (snd b).

(** Group keys come out in lexicographic order. *)
Definition key_leb (a b : string * string) : bool :=
  match String.compare (fst a) (fst b) with
  | Lt => true
  | Eq => String.leb (snd a) (snd b)
  | Gt => false
  end.

(** [.size()] of one group. *)
Definition group_size (k : string * string) (l : list Employee) : nat :=
  List.length (filter (key_eqb k) (group_keys l)).

(** [filtered_df.groupby(['Department', 'Attrition']).size().reset_index(name='count')] *)
Definition attrition_dept (v : DataFrame) : list (string * string * nat) :=
  map (fun k => (fst k, snd k, group_size k (rows v)))
      (sort key_leb (uniq key_eqb (group_keys (rows v)))).

Definition occurrences (x : string) (l : list string) : nat :=
  List.length (filter (String.eqb x) l).

(** [Series.value_counts().reset_index()]: one line per distinct value,
    most frequent first (the order among equal counts follows first
    appearance here; pandas leaves it open). *)
Definition value_counts (l : list string) : list (string * nat) :=
  sort (fun a b => Nat.leb (snd b) (snd a))
       (map (fun x => (x, occurrences x l)) (unique l)).

(** [role_counts.sort_values(by='count')] *)
Definition sort_by_count (l : list (string * nat)) : list (string * nat) :=
  sort (fun a b => Nat.leb (snd a) (snd b)) l.

(** [filtered_df[filtered_df['Department'] == 'Technology']] *)
Definition tech_df (v : DataFrame) : DataFrame :=
  mkFrame (columns v)
          (filter (fun r : Employee => String.eqb (Department r) "Technology") (rows v)).

Definition tab1 (v : DataFrame) : script unit :=
  emit (st_subheader "Attrition by Department") ;;;
  emit (st_plotly_chart (bar_attrition (attrition_dept v))) ;;;
  emit (st_subheader "Job Roles in Technology Dept.") ;;;
  match rows (tech_df v) with
  | _ :: _ =>
      let role_counts :=
        value_counts (map (fun r : Employee => JobRole r) (rows (tech_df v))) in
      emit (st_plotly_chart (bar_roles (sort_by_count role_counts)))
  | [] =>
      emit (st_info "No data available for the Technology department with the current filters.")
  end.

(* ------------------------------------------------------------------ *)
(** ** Tab 2: demographics and salary (lines 229-270) *)

Definition gender_counts (v : DataFrame) : list (string * nat) :=
  value_counts (map (fun r : Employee => Gender r) (rows v)).

Definition tab2 (v : DataFrame) : script unit :=
  emit (st_subheader "Gender Distribution") ;;;
  emit (st_plotly_chart (pie_gender (gender_counts v))) ;;;
  emit (st_subheader "Salary Distribution") ;;;
  emit (st_plotly_chart
          (histogram (map (fun r : Employee => SalaryINR r) (rows v)) 30)) ;;;
  emit (st_subheader "Salary vs. Years of Experience") ;;;
  emit (st_plotly_chart
          (scatter (map (fun r : Employee =>
                           (YearsOfExperience r, SalaryINR r, Department r,
                            JobRole r, City r))
                        (rows v)))).

(* ------------------------------------------------------------------ *)
(** ** Tab 3: correlation analysis (lines 274-296) *)

(** The numeric columns and how a row is read at each. *)
Definition numeric_field (label : string) : option (Employee -> Z) :=
  if String.eqb label "EmployeeID" then Some (fun r : Employee => EmployeeID r)
  else if String.eqb label "YearsOfExperience" then Some (fun r : Employee => YearsOfExperience r)
  else if String.eqb label "SalaryINR" then Some (fun r : Employee => SalaryINR r)
  else if String.eqb label "AttritionNumeric" then Some AttritionNumeric
  else None.

Definition is_numeric (label : string) : bool :=
  match numeric_field label with
  | Some _ => true
  | None => false
  end.

(** [filtered_df.select_dtypes(include=np.number).columns] *)
Definition numerical_cols (v : DataFrame) : list string :=
  filter is_numeric (columns v).

(** [[col for col in numerical_cols.columns if col not in ['EmployeeID', 'AttritionNumeric']]] *)
Definition default_cols (v : DataFrame) : list string :=
  filter (fun col => negb (mem col ["EmployeeID"; "AttritionNumeric"]))
         (numerical_cols v).

(** [st.multiselect(label, options, default)] without a key: the default
    until the user picks, and then the picked options (the widget offers
    nothing but the options). *)
Definition multiselect (options default : list string) (pick : option (list string))
  : list string :=
  match pick with
  | None => default
  | Some l => filter (fun c => mem c options) l
  end.

Definition selected_cols (v : DataFrame) (pick : option (list string)) : list string :=
  multiselect (numerical_cols v) (default_cols v) pick.

Definition Rsum (l : list R) : R := fold_right Rplus 0%R l.

Definition Rmean (l : list R) : R := (Rsum l / INR (List.length l))%R.

(** Sum of the products of the deviations from the means. *)
Definition codev (xs ys : list R) : R :=
  Rsum (map (fun p => ((fst p - Rmean xs) * (snd p - Rmean ys))%R) (combine xs ys)).

(** One entry of [DataFrame.corr()] (Pearson, [min_periods=1]): NaN when
    there is no observation or when the divisor is zero. *)
Definition pearson (xs ys : list R) : option R :=
  match xs with
  | [] => None
  | _ =>
      let divisor := sqrt (codev xs xs * codev ys ys) in
      if Req_dec_T divisor 0 then None else Some (codev xs ys / divisor)%R
  end.

Definition series (f : Employee -> Z) (l : list Employee) : list R :=
  map (fun r => IZR (f r)) l.

(** [numerical_cols[selected_cols]]: the chosen columns, [KeyError] for a
    label that is not a numeric column. *)
Definition getitems (v : DataFrame) (labels : list string)
  : result (list (Employee -> Z)) :=
  rmap (fun c =>
          match numeric_field c with
          | Some f => if mem c (numerical_cols v) then Ok f else Raise (KeyError c)
          | None => Raise (KeyError c)
          end) labels.

(** [.corr()] *)
Definition corr (fields : list (Employee -> Z)) (l : list Employee)
  : list (list (option R)) :=
  map (fun f => map (fun g => pearson (series f l) (series g l)) fields) fields.

Definition tab3 (v : DataFrame) (pick : option (list string)) : script unit :=
  emit (st_subheader "Correlation Between Numerical Features") ;;;
  match selected_cols v pick with
  | _ :: _ =>
      fields <- lift (getitems v (selected_cols v pick)) ;;
      emit (st_plotly_chart (imshow (selected_cols v pick) (corr fields (rows v))))
  | [] =>
      emit (st_warning "Please select at least one feature to display the heatmap.")
  end.

(* ------------------------------------------------------------------ *)
(** ** Raw data and export (lines 300-316) *)

(** The download carries [to_csv(index=False)] of the frame it is given;
    the serialisation itself is pandas' and is not modelled. *)
Definition raw_data (v : DataFrame) : script unit :=
  emit (st_subheader "Filtered Employee Data") ;;;
  emit (st_dataframe v) ;;;
  emit (st_download_button v).

(* ------------------------------------------------------------------ *)
(** ** The script *)

(** Everything computed from the filtered view (lines 168-316). *)
Definition analysis (v : DataFrame) (pick : option (list string)) : script unit :=
  kpis v ;;;
  tab1 v ;;;
  tab2 v ;;;
  tab3 v pick ;;;
  raw_data v.

Definition main (fs : filesystem) (reset_clicked : bool) (pick : option (list string))
  : script unit :=
  df <- startup fs ;;
  emit (st_markdown "IMVED Technologies Employee Analytics") ;;;
  s <- sidebar df reset_clicked ;;
  analysis (filtered_df df s) pick.

(** One interaction: the script runs on a fresh page; [experimental_rerun]
    makes it run again, with the session state it left and the button no
    longer clicked. *)
Definition run (fs : filesystem) (reset_clicked : bool) (pick : option (list string))
  (s : SessionState) : result unit * world :=
  match main fs reset_clicked pick (mkWorld s []) with
  | (Raise RerunException, w) => main fs false pick (mkWorld (session w) [])
  | r => r
  end.

(* ------------------------------------------------------------------ *)
(** ** Notions used in the statements, and sample data *)

(** [l1] is [l2] with some elements left out, the order kept. *)
Inductive Subseq {A : Type} : list A -> list A -> Prop :=
| Subseq_nil : Subseq [] []
| Subseq_skip (x : A) (l1 l2 : list A) : Subseq l1 l2 -> Subseq l1 (x :: l2)
| Subseq_cons (x : A) (l1 l2 : list A) : Subseq l1 l2 -> Subseq (x :: l1) (x :: l2).

Definition cell_eq_dec (x y : cell) : {x = y} + {x <> y}.
Proof. decide equality. apply string_dec. Defined.

Definition Line_eq_dec (x y : Line) : {x = y} + {x <> y}.
Proof.
  decide equality; try apply string_dec; try apply Z.eq_dec; apply cell_eq_dec.
Defined.

Definition Employee_eq_dec (x y : Employee) : {x = y} + {x <> y}.
Proof. decide equality; [apply Z.eq_dec | apply Line_eq_dec]. Defined.

(** The attrition cell of the row holds a value. *)
Definition has_flag (r : Employee) : bool :=
  match Attrition r with
  | Str _ => true
  | NaN => false
  end.

(** The world after more elements were written to the page. *)
Definition after (w : world) (p : list element) : world :=
  mkWorld (session w) (page w ++ p).

(** What the role chart of tab 1 adds to the page. *)
Definition roles_element (v : DataFrame) : element :=
  match rows (tech_df v) with
  | _ :: _ =>
      st_plotly_chart
        (bar_roles
           (sort_by_count
              (value_counts (map (fun r : Employee => JobRole r) (rows (tech_df v))))))
  | [] =>
      st_info "No data available for the Technology department with the current filters."
  end.

(** What the correlation tab adds to the page. *)
Definition heatmap_element
  (v : DataFrame) (pick : option (list string)) (fields : list (Employee -> Z)) : element :=
  match selected_cols v pick with
  | [] => st_warning "Please select at least one feature to display the heatmap."
  | _ :: _ =>
      st_plotly_chart
        (imshow (selected_cols v pick)
           (map (fun f =>
                   map (fun g => pearson (series f (rows v)) (series g (rows v))) fields)
                fields))
  end.

Definition empty_session : SessionState := mkSession None None None.

Definition blank : world := mkWorld empty_session [].

Definition header : list string :=
  ["EmployeeID"; "Department"; "JobRole"; "City"; "Gender";
   "YearsOfExperience"; "SalaryINR"; "Attrition"].

Definition asha : Line :=
  mkLine 1 "Technology" "Data Engineer" "Pune" "Female" 3 900000 (Str "Yes").
Definition ravi : Line :=
  mkLine 2 "Sales" "Account Manager" "Delhi" "Male" 7 700000 (Str "No").
Definition meera : Line :=
  mkLine 3 "Technology" "Analyst" "Pune" "Female" 5 800000 NaN.

Definition sample_raw : RawFrame := mkRaw header [asha; ravi; meera].

Definition sample_fs : filesystem := fun _ => Table sample_raw.

Definition sample_df : DataFrame :=
  mkFrame (header ++ ["AttritionNumeric"])
          [mkEmployee asha 1; mkEmployee ravi 0; mkEmployee meera 0].

(** The sample file without its identifier column. *)
Definition no_id_fs : filesystem :=
  fun _ => Table (mkRaw (tl header) [asha; ravi; meera]).

(** The table the loader builds from what [read_csv] returned. *)
Definition frame_of (t : RawFrame) : DataFrame :=
  mkFrame (set_column (raw_columns t) "AttritionNumeric")
          (map (fun l => mkEmployee l (attrition_numeric (Attrition l))) (raw_lines t)).

(** The selection the widgets return on a session state: the value under
    each key, and the default [init_session] stores for a key that is not
    set ([b] stands for the bounds of the years of experience). *)
Definition selection_of (df : DataFrame) (b : Z * Z) (s : SessionState) : Selection :=
  mkSelection
    (match selected_departments s with Some d => d | None => all_departments df end)
    (match selected_cities s with Some c => c | None => all_cities df end)
    (match selected_exp s with Some e => e | None => b end).

(** The session state that holds a selection under the three keys. *)
Definition session_of (sel : Selection) : SessionState :=
  mkSession (Some (sel_departments sel)) (Some (sel_cities sel)) (Some (sel_exp sel)).

(** The strict order of the group keys: by department, then by attrition
    value, strings compared byte by byte. *)
Definition key_lt (a b : string * string) : Prop :=
  String.compare (fst a) (fst b) = Lt \/
  (fst a = fst b /\ String.compare (snd a) (snd b) = Lt).

(* ------------------------------------------------------------------ *)
(** * The script on any table

    The definitions above read a table through the types its columns have
    in the input file.  [Dyn] models the script from the sidebar on (lines
    120-316) on any table the loader can return: a column may be absent, a
    cell of any column may be missing, a numeric cell may be any number.

    - A table keeps the dtype of every column and its rows; a row gives the
      cell under each label.  A numeric cell is given by its exact value.
    - What pandas computes in float64 (the mean, the percentage, the
      Pearson coefficient) and the order it leaves open (among equal counts,
      among group keys of different types) are fields of [Pandas]; so the
      statements hold for every rounding and every such order.
    - [OutOfModel] marks a point where the model stops (strings compared
      with numbers, a session state the widgets cannot produce, missing
      values among the options of a selector).  No statement below
      concludes anything from it.
    - Columns are of dtype int64, float64 or object; tables with columns of
      other dtypes (bool, datetime) are not covered. *)

Module Dyn.

Inductive dtype :=
| int64
| float64
| object.

Inductive value :=
| VStr (s : string)
| VNum (x : Qc)
| VNaN.

Definition row := string -> value.

Record DataFrame := mkFrame {
  dtypes : list (string * dtype);
  rows : list row
}.

Definition columns (df : DataFrame) : list string := map fst (dtypes df).

Inductive exn :=
| KeyError (label : string)
| ValueError
| ZeroDivisionError
| StreamlitAPIException
| RerunException
| OutOfModel.

Inductive result (A : Type) :=
| Ok (a : A)
| Raise (e : exn).

Arguments Ok {A} a.
Arguments Raise {A} e.

Definition rbind {A B} (m : result A) (k : A -> result B) : result B :=
  match m with
  | Ok a => k a
  | Raise e => Raise e
  end.

Fixpoint rmap {A B} (f : A -> result B) (l : list A) : result (list B) :=
  match l with
  | [] => Ok []
  | x :: t => rbind (f x) (fun y => rbind (rmap f t) (fun ys => Ok (y :: ys)))
  end.

(** What the script takes from pandas without fixing it: float64 results
    and the orders pandas leaves open. *)
Record Pandas := mkPandas {
  (* [Series.mean()] of the cells that are present, at least one *)
  mean64 : list Qc -> float;
  (* [(a / b) * 100] for [b] other than 0 *)
  percent64 : Z -> Z -> float;
  (* one entry of [corr()]: the rows in which both cells are present, at
     least one, first column first *)
  pearson64 : list (Qc * Qc) -> float;
  (* the order [groupby] gives its groups *)
  groupby_order : list (value * value) -> list (value * value);
  groupby_order_perm : forall l, Permutation (groupby_order l) l;
  (* the order of [value_counts()]: largest count first *)
  value_counts_order : list (value * nat) -> list (value * nat);
  value_counts_order_perm : forall l, Permutation (value_counts_order l) l;
  value_counts_order_sorted :
    forall l, Sorted (fun a b => (snd b <= snd a)%nat) (value_counts_order l);
  (* the order of [sort_values(by='count')]: smallest count first *)
  sort_values_order : list (value * nat) -> list (value * nat);
  sort_values_order_perm : forall l, Permutation (sort_values_order l) l;
  sort_values_order_sorted :
    forall l, Sorted (fun a b => (snd a <= snd b)%nat) (sort_values_order l)
}.

(* ---------------------------------------------------------------- *)
(** ** Cells and columns *)

(** Equality of cells as [isin], [unique] and [groupby] see it. *)
Definition value_eqb (a b : value) : bool :=
  match a, b with
  | VStr s, VStr t => String.eqb s t
  | VNum x, VNum y => Qc_eq_bool x y
  | VNaN, VNaN => true
  | _, _ => false
  end.

(** [x == s] for a cell [x] and a string literal [s]. *)
Definition value_eq_str (x : value) (s : string) : bool :=
  match x with
  | VStr t => String.eqb t s
  | _ => false
  end.

Definition is_str (x : value) : bool :=
  match x with
  | VStr _ => true
  | _ => false
  end.

Definition notna (x : value) : bool :=
  match x with
  | VNaN => false
  | _ => true
  end.

(** [df[label]] *)
Definition getitem (df : DataFrame) (label : string) : result (list value) :=
  if mem label (columns df)
  then Ok (map (fun r : row => r label) (rows df))
  else Raise (KeyError label).

(** The numbers of a column, missing cells skipped. *)
Fixpoint numbers (l : list value) : result (list Qc) :=
  match l with
  | [] => Ok []
  | VNum x :: t => rbind (numbers t) (fun xs => Ok (x :: xs))
  | VNaN :: t => numbers t
  | VStr _ :: _ => Raise OutOfModel
  end.

Definition Qc_min (a b : Qc) : Qc := if Qle_bool a b then a else b.

Definition Qc_max (a b : Qc) : Qc := if Qle_bool a b then b else a.

(** [Series.min()] and [Series.max()]: missing cells are skipped; NaN when
    no cell is left. *)
Definition Series_min (col : list value) : result float :=
  rbind (numbers col) (fun xs =>
    match xs with
    | [] => Ok nan
    | x :: t => Ok (fin (fold_right Qc_min x t))
    end).

Definition Series_max (col : list value) : result float :=
  rbind (numbers col) (fun xs =>
    match xs with
    | [] => Ok nan
    | x :: t => Ok (fin (fold_right Qc_max x t))
    end).

(** [int(x)]: truncation towards zero; NaN cannot be converted. *)
Definition int (x : float) : result Z :=
  match x with
  | nan => Raise ValueError
  | fin q => Ok (Z.quot (Qnum q) (Z.pos (Qden q)))
  end.

(** [df[label].unique()] *)
Definition unique (df : DataFrame) (label : string) : result (list value) :=
  rbind (getitem df label) (fun col => Ok (uniq value_eqb col)).

(* ---------------------------------------------------------------- *)
(** ** Streamlit *)

Record SessionState := mkSession {
  selected_departments : option (list value);
  selected_cities : option (list value);
  selected_exp : option (Z * Z)
}.

Record Selection := mkSelection {
  sel_departments : list value;
  sel_cities : list value;
  sel_exp : Z * Z
}.

Inductive metric_value :=
| count_value (n : Z)
| percent_value (x : float)
| currency_value (x : float).

Inductive figure :=
| bar_attrition (data : list (value * value * nat))
| bar_roles (data : list (value * nat))
| pie_gender (data : list (value * nat))
| histogram (x : list value) (nbins : nat)
| scatter (points : list (value * value * value * value * value))
| imshow (labels : list string) (z : list (list float)).

Inductive element :=
| st_info (msg : string)
| st_warning (msg : string)
| st_markdown (body : string)
| st_header (body : string)
| st_subheader (body : string)
| st_metric (label : string) (value : metric_value)
| st_plotly_chart (fig : figure)
| st_dataframe (data : DataFrame)
| st_download_button (data : DataFrame).

Record world := mkWorld {
  session : SessionState;
  page : list element
}.

Definition script (A : Type) := world -> result A * world.

Definition ret {A} (a : A) : script A := fun w => (Ok a, w).

Definition bind {A B} (m : script A) (k : A -> script B) : script B :=
  fun w =>
    match m w with
    | (Ok a, w') => k a w'
    | (Raise e, w') => (Raise e, w')
    end.

Notation "m >>= k" := (bind m k) (at level 58, left associativity).
Notation "m >> k" := (bind m (fun _ => k)) (at level 58, left associativity).

Definition raise {A} (e : exn) : script A := fun w => (Raise e, w).

Definition lift {A} (r : result A) : script A := fun w => (r, w).

Definition emit (x : element) : script unit :=
  fun w => (Ok tt, mkWorld (session w) (page w ++ [x])).

Definition get_session : script SessionState := fun w => (Ok (session w), w).

Definition put_session (s : SessionState) : script unit :=
  fun w => (Ok tt, mkWorld s (page w)).

(** A widget with a key takes its value from the session state. *)
Definition widget {A} (key : SessionState -> option A) (label : string) : script A :=
  get_session >>= fun s =>
  match key s with
  | Some v => ret v
  | None => raise (KeyError label)
  end.

(** [st.multiselect(label, options, key=...)] on the value the session
    state holds: string options and a value among them. *)
Definition multiselect (options held : list value) : result (list value) :=
  if forallb is_str options
     && forallb (fun x => existsb (value_eqb x) options) held
  then Ok held
  else Raise OutOfModel.

(** The integers the browser represents exactly. *)
Definition js_safe (z : Z) : bool :=
  (- (2 ^ 53 - 1) <=? z) && (z <=? 2 ^ 53 - 1).

(** [st.slider(label, min_value, max_value, key=...)] on the range the
    session state holds, a range within the bounds: the bounds must be
    integers the browser represents. *)
Definition slider (min_value max_value : Z) (held : Z * Z) : result (Z * Z) :=
  if (min_value <=? fst held) && (fst held <=? snd held) && (snd held <=? max_value)
  then if js_safe min_value && js_safe max_value
       then Ok held
       else Raise StreamlitAPIException
  else Raise OutOfModel.

(** [st.multiselect(label, options, default)] without a key: the default
    until the user picks, then the picked options. *)
Definition multiselect_default (options default : list string)
  (pick : option (list string)) : result (list string) :=
  match pick with
  | None => Ok default
  | Some l => if forallb (fun c => mem c options) l then Ok l else Raise OutOfModel
  end.

(** A plotly chart refuses a column that the frame does not have. *)
Definition px_columns (df : DataFrame) (labels : list string) : result unit :=
  if forallb (fun c => mem c (columns df)) labels then Ok tt else Raise ValueError.

(* ---------------------------------------------------------------- *)
(** ** Sidebar (lines 120-158) *)

(** [(int(df['YearsOfExperience'].min()), int(df['YearsOfExperience'].max()))] *)
Definition exp_bounds (df : DataFrame) : result (Z * Z) :=
  rbind (getitem df "YearsOfExperience") (fun col =>
  rbind (Series_min col) (fun lo =>
  rbind (int lo) (fun min_exp =>
  rbind (Series_max col) (fun hi =>
  rbind (int hi) (fun max_exp => Ok (min_exp, max_exp)))))).

(** The handler of the reset button (lines 125-128). *)
Definition reset_filters (df : DataFrame) : script unit :=
  lift (unique df "Department") >>= fun d =>
  get_session >>= fun s =>
  put_session (mkSession (Some d) (selected_cities s) (selected_exp s)) >>
  lift (unique df "City") >>= fun c =>
  get_session >>= fun s =>
  put_session (mkSession (selected_departments s) (Some c) (selected_exp s)) >>
  lift (exp_bounds df) >>= fun b =>
  get_session >>= fun s =>
  put_session (mkSession (selected_departments s) (selected_cities s) (Some b)) >>
  raise RerunException.

(** Lines 131-136: fill the keys that are not in the session state. *)
Definition init_session (df : DataFrame) : script unit :=
  get_session >>= fun s =>
  match selected_departments s with
  | None =>
      lift (unique df "Department") >>= fun d =>
      put_session (mkSession (Some d) (selected_cities s) (selected_exp s))
  | Some _ => ret tt
  end >>
  get_session >>= fun s =>
  match selected_cities s with
  | None =>
      lift (unique df "City") >>= fun c =>
      put_session (mkSession (selected_departments s) (Some c) (selected_exp s))
  | Some _ => ret tt
  end >>
  get_session >>= fun s =>
  match selected_exp s with
  | None =>
      lift (exp_bounds df) >>= fun b =>
      put_session (mkSession (selected_departments s) (selected_cities s) (Some b))
  | Some _ => ret tt
  end.

Definition sidebar (df : DataFrame) (reset_clicked : bool) : script Selection :=
  emit (st_header "Filter Options") >>
  (if reset_clicked then reset_filters df else ret tt) >>
  init_session df >>
  lift (unique df "Department") >>= fun options =>
  widget selected_departments "selected_departments" >>= fun held =>
  lift (multiselect options held) >>= fun deps =>
  lift (unique df "City") >>= fun options =>
  widget selected_cities "selected_cities" >>= fun held =>
  lift (multiselect options held) >>= fun cities =>
  lift (exp_bounds df) >>= fun b =>
  widget selected_exp "selected_exp" >>= fun held =>
  lift (slider (fst b) (snd b) held) >>= fun exp =>
  ret (mkSelection deps cities exp).

(* ---------------------------------------------------------------- *)
(** ** The filtered view (lines 161-165) *)

(** [Series.isin(values)] at one row. *)
Definition isin (x : value) (values : list value) : bool :=
  existsb (value_eqb x) values.

(** [Series.between(left, right)] at one row: both ends included, false on
    a missing cell. *)
Definition between (x : value) (left right : Z) : result bool :=
  match x with
  | VNum q => Ok (Qle_bool (inject_Z left) q && Qle_bool q (inject_Z right))
  | VNaN => Ok false
  | VStr _ => Raise OutOfModel
  end.

Definition keep (s : Selection) (r : row) : result bool :=
  rbind (between (r "YearsOfExperience") (fst (sel_exp s)) (snd (sel_exp s))) (fun b =>
  Ok (isin (r "Department") (sel_departments s)
      && isin (r "City") (sel_cities s)
      && b)).

(** [df[mask]] *)
Fixpoint select (mask : list bool) (l : list row) : list row :=
  match mask, l with
  | b :: mask', r :: l' => if b then r :: select mask' l' else select mask' l'
  | _, _ => []
  end.

Definition filtered_df (df : DataFrame) (s : Selection) : result DataFrame :=
  rbind (getitem df "Department") (fun _ =>
  rbind (getitem df "City") (fun _ =>
  rbind (getitem df "YearsOfExperience") (fun _ =>
  rbind (rmap (keep s) (rows df)) (fun mask =>
  Ok (mkFrame (dtypes df) (select mask (rows df))))))).

(* ---------------------------------------------------------------- *)
(** ** Key performance indicators (lines 168-180) *)

Definition total_employees (v : DataFrame) : Z :=
  Z.of_nat (List.length (rows v)).

Definition attrition_count (v : DataFrame) : result Z :=
  rbind (getitem v "Attrition") (fun col =>
  Ok (Z.of_nat (List.length (filter (fun x => value_eq_str x "Yes") col)))).

(** [(a / b) * 100] *)
Definition percent (lib : Pandas) (a b : Z) : result float :=
  if b =? 0 then Raise ZeroDivisionError else Ok (percent64 lib a b).

Definition attrition_rate (lib : Pandas) (count total : Z) : result float :=
  if 0 <? total then percent lib count total else Ok (fin 0).

Definition dtype_of (v : DataFrame) (label : string) : option dtype :=
  match find (fun cd => String.eqb (fst cd) label) (dtypes v) with
  | Some cd => Some (snd cd)
  | None => None
  end.

(** [filtered_df['SalaryINR'].mean()] on a numeric column: NaN when no
    cell is present. *)
Definition avg_salary (lib : Pandas) (v : DataFrame) : result float :=
  rbind (getitem v "SalaryINR") (fun col =>
  match dtype_of v "SalaryINR" with
  | Some int64 | Some float64 =>
      rbind (numbers col) (fun xs =>
      match xs with
      | [] => Ok nan
      | _ :: _ => Ok (mean64 lib xs)
      end)
  | _ => Raise OutOfModel
  end).

Definition kpis (lib : Pandas) (v : DataFrame) : script unit :=
  emit (st_header "Key Performance Indicators") >>
  lift (attrition_count v) >>= fun count =>
  lift (attrition_rate lib count (total_employees v)) >>= fun rate =>
  lift (avg_salary lib v) >>= fun avg =>
  emit (st_metric "Total Employees" (count_value (total_employees v))) >>
  emit (st_metric "Attrition Rate" (percent_value rate)) >>
  emit (st_metric "Average Salary (INR)" (currency_value avg)).

(* ---------------------------------------------------------------- *)
(** ** Tab 1 (lines 193-225) *)

(** The key of a row for [groupby(['Department', 'Attrition'])]: a row in
    which one of the two cells is missing belongs to no group. *)
Definition group_key (r : row) : option (value * value) :=
  match r "Department" with
  | VNaN => None
  | d =>
      match r "Attrition" with
      | VNaN => None
      | a => Some (d, a)
      end
  end.

Definition group_keys (l : list row) : list (value * value) :=
  flat_map (fun r => match group_key r with Some k => [k] | None => [] end) l.

Definition key_eqb (a b : value * value) : bool :=
  value_eqb (fst a) (fst b) && value_eqb (snd a) (snd b).

Definition group_size (k : value * value) (l : list row) : nat :=
  List.length (filter (key_eqb k) (group_keys l)).

(** [filtered_df.groupby(['Department', 'Attrition']).size().reset_index(name='count')] *)
Definition attrition_dept (lib : Pandas) (v : DataFrame)
  : result (list (value * value * nat)) :=
  rbind (getitem v "Department") (fun _ =>
  rbind (getitem v "Attrition") (fun _ =>
  Ok (map (fun k => (fst k, snd k, group_size k (rows v)))
          (groupby_order lib (uniq key_eqb (group_keys (rows v))))))).

Definition occurrences (x : value) (l : list value) : nat :=
  List.length (filter (value_eqb x) l).

(** [Series.value_counts().reset_index()]: missing cells are left out. *)
Definition value_counts (lib : Pandas) (col : list value) : list (value * nat) :=
  value_counts_order lib
    (map (fun x => (x, occurrences x (filter notna col)))
         (uniq value_eqb (filter notna col))).

(** The rows of [filtered_df[filtered_df['Department'] == 'Technology']]. *)
Definition tech_rows (v : DataFrame) : list row :=
  filter (fun r : row => value_eq_str (r "Department") "Technology") (rows v).

Definition tab1 (lib : Pandas) (v : DataFrame) : script unit :=
  emit (st_subheader "Attrition by Department") >>
  lift (attrition_dept lib v) >>= fun data =>
  emit (st_plotly_chart (bar_attrition data)) >>
  emit (st_subheader "Job Roles in Technology Dept.") >>
  lift (getitem v "Department") >>= fun _ =>
  match tech_rows v with
  | _ :: _ =>
      lift (getitem (mkFrame (dtypes v) (tech_rows v)) "JobRole") >>= fun col =>
      emit (st_plotly_chart
              (bar_roles (sort_values_order lib (value_counts lib col))))
  | [] =>
      emit (st_info "No data available for the Technology department with the current filters.")
  end.

(* ---------------------------------------------------------------- *)
(** ** Tab 2 (lines 229-270) *)

Definition tab2 (lib : Pandas) (v : DataFrame) : script unit :=
  emit (st_subheader "Gender Distribution") >>
  lift (getitem v "Gender") >>= fun col =>
  emit (st_plotly_chart (pie_gender (value_counts lib col))) >>
  emit (st_subheader "Salary Distribution") >>
  lift (px_columns v ["SalaryINR"]) >>
  emit (st_plotly_chart
          (histogram (map (fun r : row => r "SalaryINR") (rows v)) 30)) >>
  emit (st_subheader "Salary vs. Years of Experience") >>
  lift (px_columns v ["YearsOfExperience"; "SalaryINR"; "Department"; "JobRole"; "City"]) >>
  emit (st_plotly_chart
          (scatter (map (fun r : row =>
                           (r "YearsOfExperience", r "SalaryINR", r "Department",
                            r "JobRole", r "City"))
                        (rows v)))).

(* ---------------------------------------------------------------- *)
(** ** Tab 3 (lines 274-296) *)

Definition is_number (d : dtype) : bool :=
  match d with
  | object => false
  | _ => true
  end.

(** [filtered_df.select_dtypes(include=np.number).columns] *)
Definition numerical_cols (v : DataFrame) : list string :=
  map fst (filter (fun cd => is_number (snd cd)) (dtypes v)).

Definition default_cols (v : DataFrame) : list string :=
  filter (fun col => negb (mem col ["EmployeeID"; "AttritionNumeric"]))
         (numerical_cols v).

(** [numerical_cols[selected_cols]] *)
Definition getitems (v : DataFrame) (labels : list string) : result (list (list value)) :=
  rmap (fun c => if mem c (numerical_cols v) then getitem v c else Raise (KeyError c))
       labels.

(** The rows in which both cells are present. *)
Fixpoint complete_pairs (xs ys : list value) : result (list (Qc * Qc)) :=
  match xs, ys with
  | x :: xs', y :: ys' =>
      rbind (complete_pairs xs' ys') (fun ps =>
      match x with
      | VStr _ => Raise OutOfModel
      | VNaN => match y with VStr _ => Raise OutOfModel | _ => Ok ps end
      | VNum a =>
          match y with
          | VStr _ => Raise OutOfModel
          | VNaN => Ok ps
          | VNum b => Ok ((a, b) :: ps)
          end
      end)
  | _, _ => Ok []
  end.

(** One entry of [corr()]: NaN when no row has both cells. *)
Definition corr_pair (lib : Pandas) (xs ys : list value) : result float :=
  rbind (complete_pairs xs ys) (fun ps =>
  match ps with
  | [] => Ok nan
  | _ :: _ => Ok (pearson64 lib ps)
  end).

(** [corr()]: the entry of two columns is computed once, the later column
    first, and written at both places. *)
Definition corr_matrix (lib : Pandas) (cols : list (list value))
  : result (list (list float)) :=
  rmap (fun i =>
          rmap (fun j =>
                  corr_pair lib (nth (Nat.max i j) cols []) (nth (Nat.min i j) cols []))
               (seq 0 (List.length cols)))
       (seq 0 (List.length cols)).

Definition corr (lib : Pandas) (v : DataFrame) (labels : list string)
  : result (list (list float)) :=
  rbind (getitems v labels) (corr_matrix lib).

Definition tab3 (lib : Pandas) (v : DataFrame) (pick : option (list string))
  : script unit :=
  emit (st_subheader "Correlation Between Numerical Features") >>
  lift (multiselect_default (numerical_cols v) (default_cols v) pick) >>= fun selected_cols =>
  match selected_cols with
  | _ :: _ =>
      lift (corr lib v selected_cols) >>= fun z =>
      emit (st_plotly_chart (imshow selected_cols z))
  | [] =>
      emit (st_warning "Please select at least one feature to display the heatmap.")
  end.

(* ---------------------------------------------------------------- *)
(** ** Raw data, and the script from the sidebar on *)

Definition raw_data (v : DataFrame) : script unit :=
  emit (st_subheader "Filtered Employee Data") >>
  emit (st_dataframe v) >>
  emit (st_download_button v).

(** Lines 168-316. *)
Definition analysis (lib : Pandas) (v : DataFrame) (pick : option (list string))
  : script unit :=
  kpis lib v >>
  tab1 lib v >>
  tab2 lib v >>
  tab3 lib v pick >>
  raw_data v.

(** Lines 116-316 on a loaded table. *)
Definition body (lib : Pandas) (df : DataFrame) (reset_clicked : bool)
  (pick : option (list string)) : script unit :=
  emit (st_markdown "IMVED Technologies Employee Analytics") >>
  sidebar df reset_clicked >>= fun s =>
  lift (filtered_df df s) >>= fun v =>
  analysis lib v pick.

(** One interaction: [experimental_rerun] makes the script run again on a
    fresh page, with the session state it left and nothing clicked. *)
Definition run (lib : Pandas) (df : DataFrame) (reset_clicked : bool)
  (pick : option (list string)) (s : SessionState) : result unit * world :=
  match body lib df reset_clicked pick (mkWorld s []) with
  | (Raise RerunException, w) => body lib df false pick (mkWorld (session w) [])
  | r => r
  end.

(* ---------------------------------------------------------------- *)
(** ** Conditions on tables, and sample data *)

(** The frame has every one of the columns. *)
Definition has_columns (df : DataFrame) (labels : list string) : bool :=
  forallb (fun c => mem c (columns df)) labels.

(** Every cell of the column is a string. *)
Definition strings_at (df : DataFrame) (label : string) : bool :=
  forallb (fun r : row => is_str (r label)) (rows df).

(** An integer the browser represents exactly. *)
Definition is_safe_integer (x : value) : bool :=
  match x with
  | VNum q => (Z.pos (Qden q) =? 1) && js_safe (Qnum q)
  | _ => false
  end.

(** Every cell of the column is such an integer. *)
Definition safe_integers_at (df : DataFrame) (label : string) : bool :=
  forallb (fun r : row => is_safe_integer (r label)) (rows df).

(** The cell is present. *)
Definition present (x : value) : Prop := x <> VNaN.

Definition num (z : Z) : value := VNum (Q2Qc (inject_Z z)).

(** The number in a numeric cell. *)
Definition number_of (x : value) : Qc :=
  match x with
  | VNum q => q
  | _ => Q2Qc 0
  end.

(** A row given by its cells; a label that is not listed has no value. *)
Fixpoint row_of (cells : list (string * value)) : row :=
  fun label =>
    match cells with
    | [] => VNaN
    | (c, x) :: t => if String.eqb c label then x else row_of t label
    end.

Definition sample_dtypes : list (string * dtype) :=
  [("EmployeeID", int64); ("Department", object); ("JobRole", object);
   ("City", object); ("Gender", object); ("YearsOfExperience", int64);
   ("SalaryINR", int64); ("Attrition", object); ("AttritionNumeric", int64)].

Definition asha : row :=
  row_of [("EmployeeID", num 1); ("Department", VStr "Technology");
          ("JobRole", VStr "Data Engineer"); ("City", VStr "Pune");
          ("Gender", VStr "Female"); ("YearsOfExperience", num 3);
          ("SalaryINR", num 900000); ("Attrition", VStr "Yes");
          ("AttritionNumeric", num 1)].

Definition ravi : row :=
  row_of [("EmployeeID", num 2); ("Department", VStr "Sales");
          ("JobRole", VStr "Account Manager"); ("City", VStr "Delhi");
          ("Gender", VStr "Male"); ("YearsOfExperience", num 7);
          ("SalaryINR", num 700000); ("Attrition", VStr "No");
          ("AttritionNumeric", num 0)].

(** A row whose attrition cell is empty in the file. *)
Definition meera : row :=
  row_of [("EmployeeID", num 3); ("Department", VStr "Technology");
          ("JobRole", VStr "Analyst"); ("City", VStr "Pune");
          ("Gender", VStr "Female"); ("YearsOfExperience", num 5);
          ("SalaryINR", num 800000); ("Attrition", VNaN);
          ("AttritionNumeric", num 0)].

Definition sample_df : DataFrame := mkFrame sample_dtypes [asha; ravi; meera].

(** The table of a file that has the header and no line: every column is
    of dtype object. *)
Definition header_only : DataFrame :=
  mkFrame (map (fun cd : string * dtype => (fst cd, object)) sample_dtypes) [].

(** A row whose years of experience are empty in the file, and a table
    with it: the column is then of dtype float64. *)
Definition tara : row :=
  row_of [("EmployeeID", num 4); ("Department", VStr "Sales");
          ("JobRole", VStr "Analyst"); ("City", VStr "Delhi");
          ("Gender", VStr "Female"); ("YearsOfExperience", VNaN);
          ("SalaryINR", num 600000); ("Attrition", VStr "No");
          ("AttritionNumeric", num 0)].

Definition gap_dtypes : list (string * dtype) :=
  [("EmployeeID", int64); ("Department", object); ("JobRole", object);
   ("City", object); ("Gender", object); ("YearsOfExperience", float64);
   ("SalaryINR", int64); ("Attrition", object); ("AttritionNumeric", int64)].

Definition sample_gap : DataFrame := mkFrame gap_dtypes [asha; ravi; tara].

(** The view of [sample_df] under a selection that no row meets. *)
Definition empty_view : DataFrame := mkFrame sample_dtypes [].

(** A view without rows of a table that has no salary column. *)
Definition no_salary_view : DataFrame :=
  mkFrame [("EmployeeID", int64); ("Department", object); ("JobRole", object);
           ("City", object); ("Gender", object); ("YearsOfExperience", int64);
           ("Attrition", object); ("AttritionNumeric", int64)] [].

(** A column of a numeric dtype holds numbers and missing cells only. *)
Definition well_typed (v : DataFrame) : bool :=
  forallb (fun cd : string * dtype =>
             negb (is_number (snd cd))
             || forallb (fun r : row => negb (is_str (r (fst cd)))) (rows v))
          (dtypes v).

Definition empty_session : SessionState := mkSession None None None.

Definition blank : world := mkWorld empty_session [].

Definition after (w : world) (p : list element) : world :=
  mkWorld (session w) (page w ++ p).

(** A library for the examples: the mean and the percentage without
    rounding, groups in the order of their first row, counts by a stable
    insertion sort.  The examples do not use its Pearson coefficient. *)
Definition mean_exact (xs : list Qc) : float :=
  fin (Qred (fold_right Qplus 0%Q (map this xs)
             / inject_Z (Z.of_nat (List.length xs)))).

Definition percent_exact (a b : Z) : float :=
  fin (Qred (inject_Z a / inject_Z b * 100)).

Definition count_geb (a b : value * nat) : bool := Nat.leb (snd b) (snd a).

Definition count_leb (a b : value * nat) : bool := Nat.leb (snd a) (snd b).

Definition sample_lib : Pandas.
Proof.
  assert (Hperm : forall (leb : value * nat -> value * nat -> bool) l,
             Permutation (sort leb l) l).
  { intros leb l. induction l as [|x l IH]; simpl; [constructor|].
    transitivity (x :: sort leb l); [|now constructor].
    generalize (sort leb l). clear. intros s.
    induction s as [|y s IH]; simpl; [reflexivity|].
    destruct (leb x y); [reflexivity|].
    transitivity (y :: x :: s); [now constructor | apply perm_swap]. }
  assert (Hsort : forall (leb : value * nat -> value * nat -> bool),
             (forall a b, leb a b = true \/ leb b a = true) ->
             forall l, Sorted (fun a b => leb a b = true) (sort leb l)).
  { intros leb tot l. induction l as [|x l IH]; simpl; [constructor|].
    revert IH. generalize (sort leb l). clear l. intros s.
    induction s as [|a s IH]; simpl; intros Hs.
    - repeat constructor.
    - destruct (leb x a) eqn:E.
      + constructor; [assumption | now constructor].
      + inversion Hs as [|? ? Hs' Hh]; subst. constructor; [now apply IH|].
        destruct s as [|b s']; simpl.
        * constructor. destruct (tot a x) as [H|H]; [exact H | congruence].
        * destruct (leb x b).
          -- constructor. destruct (tot a x) as [H|H]; [exact H | congruence].
          -- inversion Hh; subst. now constructor. }
  assert (Hweak : forall (leb : value * nat -> value * nat -> bool)
                         (R : value * nat -> value * nat -> Prop),
             (forall a b, leb a b = true -> R a b) ->
             forall l, Sorted (fun a b => leb a b = true) l -> Sorted R l).
  { intros leb R HR l. induction 1 as [|a l Hs IH Hh]; constructor; [exact IH|].
    destruct Hh; constructor. now apply HR. }
  refine (mkPandas mean_exact percent_exact (fun _ => nan)
            (fun l => l) (fun l => Permutation_refl l)
            (sort count_geb) (Hperm count_geb) _
            (sort count_leb) (Hperm count_leb) _).
  - intros l. apply (Hweak count_geb).
    + intros a b H. now apply Nat.leb_le in H.
    + apply Hsort. intros a b. unfold count_geb.
      rewrite !Nat.leb_le. destruct (Nat.le_ge_cases (snd a) (snd b)); auto.
  - intros l. apply (Hweak count_leb).
    + intros a b H. now apply Nat.leb_le in H.
    + apply Hsort. intros a b. unfold count_leb.
      rewrite !Nat.leb_le. destruct (Nat.le_ge_cases (snd a) (snd b)); auto.
Defined.

End Dyn.

(* ------------------------------------------------------------------ *)
(* Properties *)


(** ** Auxiliary facts *)

Lemma mem_In (x : string) (l : list string) : mem x l = true <-> In x l.
Proof.
  unfold mem. rewrite existsb_exists. split.
  - intros [y [Hy He]]. apply String.eqb_eq in He. now subst.
  - intros H. exists x. split; [assumption | apply String.eqb_refl].
Qed.

Lemma between_spec (x lo hi : Z) : between x lo hi = true <-> lo <= x <= hi.
Proof. unfold between. rewrite andb_true_iff, !Z.leb_le. tauto. Qed.

Lemma keep_spec (s : Selection) (r : Employee) :
  keep s r = true <->
  In (Department r) (sel_departments s) /\
  In (City r) (sel_cities s) /\
  fst (sel_exp s) <= YearsOfExperience r <= snd (sel_exp s).
Proof.
  unfold keep, isin. rewrite !andb_true_iff, !mem_In, between_spec. tauto.
Qed.

Lemma filter_Subseq {A : Type} (p : A -> bool) (l : list A) : Subseq (filter p l) l.
Proof.
  induction l as [|x l IH]; simpl.
  - constructor.
  - destruct (p x); now constructor.
Qed.

Lemma count_occ_filter (p : Employee -> bool) (l : list Employee) (r : Employee) :
  count_occ Employee_eq_dec (filter p l) r =
  if p r then count_occ Employee_eq_dec l r else 0%nat.
Proof.
  induction l as [|x l IH]; simpl.
  - now destruct (p r).
  - destruct (p x) eqn:Hx; simpl; destruct (Employee_eq_dec x r) as [->|Hne];
      rewrite IH; try rewrite Hx; reflexivity.
Qed.

(** ** The filtered view *)

(** C1: the filtered view keeps the columns, is the table with some rows
    left out, and holds exactly the rows (with their multiplicity) whose
    department is selected and whose city is selected and whose years of
    experience lie in the closed range. *)
Theorem filtered_df_exact (df : DataFrame) (s : Selection) :
  columns (filtered_df df s) = columns df /\
  Subseq (rows (filtered_df df s)) (rows df) /\
  (forall r : Employee,
      In r (rows (filtered_df df s)) <->
      In r (rows df) /\
      In (Department r) (sel_departments s) /\
      In (City r) (sel_cities s) /\
      fst (sel_exp s) <= YearsOfExperience r <= snd (sel_exp s)) /\
  (forall r : Employee,
      In (Department r) (sel_departments s) ->
      In (City r) (sel_cities s) ->
      fst (sel_exp s) <= YearsOfExperience r <= snd (sel_exp s) ->
      count_occ Employee_eq_dec (rows (filtered_df df s)) r =
      count_occ Employee_eq_dec (rows df) r).
Proof.
  unfold filtered_df; simpl.
  split; [reflexivity|].
  split; [apply filter_Subseq|].
  split.
  - intros r. rewrite filter_In, keep_spec. tauto.
  - intros r Hd Hc He. rewrite count_occ_filter.
    assert (Hk : keep s r = true) by (apply keep_spec; tauto).
    now rewrite Hk.
Qed.

(** ** Data loading *)

Lemma attrition_numeric_spec (x : cell) :
  (x = Str "Yes" /\ attrition_numeric x = 1) \/
  (x <> Str "Yes" /\ attrition_numeric x = 0).
Proof.
  unfold attrition_numeric. destruct x as [s|]; simpl.
  - destruct (String.eqb_spec s "Yes") as [->|Hne].
    + left. split; reflexivity.
    + right. split; [congruence | reflexivity].
  - right. split; [discriminate | reflexivity].
Qed.

Lemma load_data_table (fs : filesystem) (file_path : string) (t : RawFrame) (w : world) :
  fs file_path = Table t ->
  load_data fs file_path w =
  if mem "Attrition" (raw_columns t)
  then (Ok (Some (mkFrame (set_column (raw_columns t) "AttritionNumeric")
                          (map (fun l => mkEmployee l (attrition_numeric (Attrition l)))
                               (raw_lines t)))), w)
  else (Raise (KeyError "Attrition"), w).
Proof.
  intros Hf.
  unfold load_data, except_FileNotFoundError, bind, lift, ret, read_csv, has_column.
  rewrite Hf. destruct (mem "Attrition" (raw_columns t)); reflexivity.
Qed.

(** C10: on a file that has the attrition column the loader returns a table
    and writes nothing to the page; the table has one row per line of the
    file, in order and unchanged, and in every row the numeric mirror is 1
    when the attrition cell is the string "Yes" and 0 for any other cell,
    a missing one included. *)
Theorem load_data_mirror_total
  (fs : filesystem) (file_path : string) (t : RawFrame) (w : world) :
  fs file_path = Table t ->
  mem "Attrition" (raw_columns t) = true ->
  exists df : DataFrame,
    load_data fs file_path w = (Ok (Some df), w) /\
    map line (rows df) = raw_lines t /\
    forall r : Employee, In r (rows df) ->
      (Attrition r = Str "Yes" /\ AttritionNumeric r = 1) \/
      (Attrition r <> Str "Yes" /\ AttritionNumeric r = 0).
Proof.
  intros Hf Hc. rewrite (load_data_table fs file_path t w Hf), Hc.
  eexists. split; [reflexivity|]. simpl. split.
  - rewrite map_map. simpl. apply map_id.
  - intros r Hr. apply in_map_iff in Hr. destruct Hr as [l [<- _]]. simpl.
    apply attrition_numeric_spec.
Qed.

Lemma load_data_mirror_total_witness :
  exists df : DataFrame,
    load_data sample_fs "mock_imved_tech_data.csv" blank = (Ok (Some df), blank) /\
    map line (rows df) = [asha; ravi; meera] /\
    forall r : Employee, In r (rows df) ->
      (Attrition r = Str "Yes" /\ AttritionNumeric r = 1) \/
      (Attrition r <> Str "Yes" /\ AttritionNumeric r = 0).
Proof.
  apply (load_data_mirror_total sample_fs "mock_imved_tech_data.csv" sample_raw blank).
  - reflexivity.
  - reflexivity.
Defined.

Lemma startup_table (fs : filesystem) (t : RawFrame) (w : world) :
  fs "mock_imved_tech_data.csv" = Table t ->
  startup fs w =
  if mem "Attrition" (raw_columns t)
  then (Ok (mkFrame (set_column (raw_columns t) "AttritionNumeric")
                    (map (fun l => mkEmployee l (attrition_numeric (Attrition l)))
                         (raw_lines t))), w)
  else (Raise (KeyError "Attrition"), w).
Proof.
  intros Hf. unfold startup, bind. rewrite (load_data_table fs _ t w Hf).
  destruct (mem "Attrition" (raw_columns t)); reflexivity.
Qed.

Lemma main_startup_raise
  (fs : filesystem) (c : bool) (p : option (list string)) (w w' : world) (e : exn) :
  startup fs w = (Raise e, w') -> main fs c p w = (Raise e, w').
Proof. intros H. unfold main, bind. now rewrite H. Qed.

(** C4, as the code has it: a missing file makes the loader show an error
    and a hint and return nothing, and the script stops; a file that does
    not parse, or that has no attrition column, makes the loader raise, and
    the exception ends the script with nothing written to the page.  In the
    three cases no table exists and the script goes no further.  Any other
    file is loaded, whatever other columns it has. *)
Theorem startup_outcomes
  (fs : filesystem) (c : bool) (p : option (list string)) (w : world) :
  match fs "mock_imved_tech_data.csv" with
  | Absent =>
      let w' := mkWorld (session w)
                  (page w ++
                   [st_error (not_found_message "mock_imved_tech_data.csv");
                    st_info "Please ensure the CSV file is in the same directory as the script."]) in
      load_data fs "mock_imved_tech_data.csv" w = (Ok None, w') /\
      startup fs w = (Raise StopException, w') /\
      main fs c p w = (Raise StopException, w')
  | Unparsable =>
      load_data fs "mock_imved_tech_data.csv" w = (Raise ParserError, w) /\
      startup fs w = (Raise ParserError, w) /\
      main fs c p w = (Raise ParserError, w)
  | Table t =>
      if mem "Attrition" (raw_columns t)
      then startup fs w =
           (Ok (mkFrame (set_column (raw_columns t) "AttritionNumeric")
                        (map (fun l => mkEmployee l (attrition_numeric (Attrition l)))
                             (raw_lines t))), w)
      else load_data fs "mock_imved_tech_data.csv" w = (Raise (KeyError "Attrition"), w) /\
           startup fs w = (Raise (KeyError "Attrition"), w) /\
           main fs c p w = (Raise (KeyError "Attrition"), w)
  end.
Proof.
  destruct (fs "mock_imved_tech_data.csv") as [| |t] eqn:Hf.
  - assert (Hl : load_data fs "mock_imved_tech_data.csv" w =
                 (Ok None, mkWorld (session w)
                  (page w ++
                   [st_error (not_found_message "mock_imved_tech_data.csv");
                    st_info "Please ensure the CSV file is in the same directory as the script."]))).
    { unfold load_data, except_FileNotFoundError, bind, lift, ret, read_csv, emit.
      rewrite Hf. simpl. rewrite <- app_assoc. reflexivity. }
    assert (Hs : startup fs w =
                 (Raise StopException, mkWorld (session w)
                  (page w ++
                   [st_error (not_found_message "mock_imved_tech_data.csv");
                    st_info "Please ensure the CSV file is in the same directory as the script."]))).
    { unfold startup, bind. rewrite Hl. reflexivity. }
    simpl. split; [exact Hl|]. split; [exact Hs|].
    now apply main_startup_raise.
  - assert (Hl : load_data fs "mock_imved_tech_data.csv" w = (Raise ParserError, w)).
    { unfold load_data, except_FileNotFoundError, bind, lift, ret, read_csv.
      rewrite Hf. reflexivity. }
    assert (Hs : startup fs w = (Raise ParserError, w)).
    { unfold startup, bind. rewrite Hl. reflexivity. }
    split; [exact Hl|]. split; [exact Hs|]. now apply main_startup_raise.
  - pose proof (startup_table fs t w Hf) as Hs.
    pose proof (load_data_table fs _ t w Hf) as Hl.
    destruct (mem "Attrition" (raw_columns t)).
    + exact Hs.
    + split; [exact Hl|]. split; [exact Hs|]. now apply main_startup_raise.
Qed.

(** ** Sidebar and reset *)

Section Distinct.

Context {A : Type} (eqb : A -> A -> bool).
Hypothesis eqb_true : forall x y : A, eqb x y = true <-> x = y.

Lemma eqb_false (x y : A) : eqb x y = false <-> x <> y.
Proof. rewrite <- eqb_true. destruct (eqb x y); split; congruence. Qed.

Lemma uniq_In_iff (x : A) (l : list A) : In x (uniq eqb l) <-> In x l.
Proof.
  induction l as [|y l IH]; simpl; [tauto|].
  rewrite filter_In, IH, negb_true_iff, eqb_false. split.
  - intros [H|[H _]]; auto.
  - intros [H|H]; auto.
    destruct (eqb y x) eqn:E.
    + left. now apply eqb_true.
    + right. split; [assumption|]. now apply eqb_false.
Qed.

Lemma uniq_NoDup (l : list A) : NoDup (uniq eqb l).
Proof.
  induction l as [|y l IH]; simpl; constructor.
  - rewrite filter_In, negb_true_iff, eqb_false. intros [_ H]. now apply H.
  - now apply NoDup_filter.
Qed.

Lemma insert_Permutation (leb : A -> A -> bool) (x : A) (l : list A) :
  Permutation (insert leb x l) (x :: l).
Proof.
  induction l as [|y l IH]; simpl; [reflexivity|].
  destruct (leb x y); [reflexivity|].
  rewrite IH. apply perm_swap.
Qed.

Lemma sort_Permutation (leb : A -> A -> bool) (l : list A) :
  Permutation (sort leb l) l.
Proof.
  induction l as [|x l IH]; simpl; [reflexivity|].
  rewrite insert_Permutation. now constructor.
Qed.

(** Among distinct keys exactly one equals a key that is listed. *)
Lemma indicator_sum (x : A) (ks : list A) :
  NoDup ks -> In x ks ->
  list_sum (map (fun k => if eqb k x then 1 else 0)%nat ks) = 1%nat.
Proof.
  induction 1 as [|k ks Hk Hnd IH]; simpl; [tauto|].
  intros [->|Hin].
  - rewrite (proj2 (eqb_true x x) eq_refl). f_equal.
    clear IH Hnd. induction ks as [|a ks IH]; simpl; [reflexivity|].
    assert (E : eqb a x = false).
    { apply eqb_false. intros ->. apply Hk. now left. }
    rewrite E. apply IH. intros H. apply Hk. now right.
  - assert (E : eqb k x = false).
    { apply eqb_false. intros ->. now apply Hk. }
    rewrite E. simpl. now apply IH.
Qed.

Lemma group_sizes_cons (x : A) (l ks : list A) :
  list_sum (map (fun k => List.length (filter (eqb k) (x :: l))) ks) =
  (list_sum (map (fun k => if eqb k x then 1 else 0) ks)
   + list_sum (map (fun k => List.length (filter (eqb k) l)) ks))%nat.
Proof.
  induction ks as [|k ks IHk]; simpl; [reflexivity|].
  simpl in IHk. rewrite IHk. destruct (eqb k x); simpl; lia.
Qed.

(** The sizes of the groups of a list add up to its length. *)
Lemma group_sizes_sum (l ks : list A) :
  NoDup ks -> (forall x, In x l -> In x ks) ->
  list_sum (map (fun k => List.length (filter (eqb k) l)) ks) = List.length l.
Proof.
  intros Hnd. induction l as [|x l IH]; intros Hin.
  - clear. induction ks as [|k ks IHk]; simpl; auto.
  - rewrite group_sizes_cons.
    rewrite (indicator_sum x ks Hnd (Hin x (or_introl eq_refl))).
    rewrite IH by (intros y Hy; apply Hin; now right).
    reflexivity.
Qed.

End Distinct.

Lemma uniq_In (x : string) (l : list string) : In x (unique l) <-> In x l.
Proof. apply uniq_In_iff. apply String.eqb_eq. Qed.

Lemma filter_all {A : Type} (p : A -> bool) (l : list A) :
  (forall x, In x l -> p x = true) -> filter p l = l.
Proof.
  induction l as [|x l IH]; simpl; intros H; [reflexivity|].
  rewrite (H x (or_introl eq_refl)). f_equal. apply IH. intros y Hy. apply H. now right.
Qed.

Lemma int_integer (z : Z) : int (fin (inject_Z z)) = Ok z.
Proof. unfold int, inject_Z. simpl. now rewrite Z.quot_1_r. Qed.

Lemma fold_min_le (x : Z) (l : list Z) :
  fold_right Z.min x l <= x /\ forall y, In y l -> fold_right Z.min x l <= y.
Proof.
  induction l as [|a l [IH1 IH2]]; simpl.
  - split; [lia | tauto].
  - split; [lia|]. intros y [->|Hy]; [lia|]. specialize (IH2 y Hy). lia.
Qed.

Lemma fold_max_ge (x : Z) (l : list Z) :
  x <= fold_right Z.max x l /\ forall y, In y l -> y <= fold_right Z.max x l.
Proof.
  induction l as [|a l [IH1 IH2]]; simpl.
  - split; [lia | tauto].
  - split; [lia|]. intros y [->|Hy]; [lia|]. specialize (IH2 y Hy). lia.
Qed.

Lemma fold_min_In (x : Z) (l : list Z) : In (fold_right Z.min x l) (x :: l).
Proof.
  induction l as [|a l IH]; simpl; [auto|].
  destruct (Z.min_spec a (fold_right Z.min x l)) as [[_ ->]|[_ ->]]; simpl in *; tauto.
Qed.

Lemma fold_max_In (x : Z) (l : list Z) : In (fold_right Z.max x l) (x :: l).
Proof.
  induction l as [|a l IH]; simpl; [auto|].
  destruct (Z.max_spec a (fold_right Z.max x l)) as [[_ ->]|[_ ->]]; simpl in *; tauto.
Qed.

(** On a table with at least one row the bounds are the least and the
    greatest years of experience in it. *)
Lemma exp_bounds_nonempty (df : DataFrame) :
  rows df <> [] ->
  exists lo hi : Z,
    exp_bounds df = Ok (lo, hi) /\
    (forall r : Employee, In r (rows df) -> lo <= YearsOfExperience r <= hi) /\
    (exists r : Employee, In r (rows df) /\ YearsOfExperience r = lo) /\
    (exists r : Employee, In r (rows df) /\ YearsOfExperience r = hi).
Proof.
  unfold exp_bounds. destruct (rows df) as [|r0 t] eqn:Hr; [congruence|]. intros _.
  simpl map. unfold Series_min, Series_max. rewrite !int_integer. simpl rbind.
  set (ys := map (fun r : Employee => YearsOfExperience r) t).
  exists (fold_right Z.min (YearsOfExperience r0) ys),
         (fold_right Z.max (YearsOfExperience r0) ys).
  split; [reflexivity|].
  destruct (fold_min_le (YearsOfExperience r0) ys) as [Hm1 Hm2].
  destruct (fold_max_ge (YearsOfExperience r0) ys) as [HM1 HM2].
  split; [|split].
  - intros r [<-|Hin]; [lia|].
    assert (Hy : In (YearsOfExperience r) ys)
      by (unfold ys; apply in_map_iff; now exists r).
    specialize (Hm2 _ Hy). specialize (HM2 _ Hy). lia.
  - pose proof (fold_min_In (YearsOfExperience r0) ys) as H.
    change (In (fold_right Z.min (YearsOfExperience r0) ys)
               (map (fun r : Employee => YearsOfExperience r) (r0 :: t))) in H.
    apply in_map_iff in H. destruct H as [r [E Hin]]. now exists r.
  - pose proof (fold_max_In (YearsOfExperience r0) ys) as H.
    change (In (fold_right Z.max (YearsOfExperience r0) ys)
               (map (fun r : Employee => YearsOfExperience r) (r0 :: t))) in H.
    apply in_map_iff in H. destruct H as [r [E Hin]]. now exists r.
Qed.

Lemma exp_bounds_empty (df : DataFrame) :
  rows df = [] -> exp_bounds df = Raise ValueError.
Proof. unfold exp_bounds. now intros ->. Qed.

(** The button handler, when the bounds exist. *)
Lemma sidebar_reset (df : DataFrame) (b : Z * Z) (w : world) :
  exp_bounds df = Ok b ->
  sidebar df true w =
  (Raise RerunException,
   mkWorld (mkSession (Some (all_departments df)) (Some (all_cities df)) (Some b))
           (page w ++ [st_header "Filter Options"])).
Proof.
  intros Hb.
  unfold sidebar, reset_filters, bind, emit, get_session, put_session, lift, raise.
  simpl. rewrite Hb. reflexivity.
Qed.

(** A run of the sidebar on a session state that holds the three keys. *)
Lemma sidebar_session
  (df : DataFrame) (b : Z * Z) (d c : list string) (e : Z * Z) (pg : list element) :
  exp_bounds df = Ok b ->
  sidebar df false (mkWorld (mkSession (Some d) (Some c) (Some e)) pg) =
  (Ok (mkSelection d c e),
   mkWorld (mkSession (Some d) (Some c) (Some e)) (pg ++ [st_header "Filter Options"])).
Proof.
  intros Hb.
  unfold sidebar, init_session, widget, bind, emit, get_session, put_session, lift, ret.
  simpl. rewrite Hb. reflexivity.
Qed.

Lemma filtered_df_defaults (df : DataFrame) (lo hi : Z) :
  (forall r : Employee, In r (rows df) -> lo <= YearsOfExperience r <= hi) ->
  filtered_df df (mkSelection (all_departments df) (all_cities df) (lo, hi)) = df.
Proof.
  intros Hb. unfold filtered_df. destruct df as [cols rs]. simpl in *. f_equal.
  apply filter_all. intros r Hr. apply keep_spec. simpl.
  split; [|split].
  - apply uniq_In. apply in_map_iff. now exists r.
  - apply uniq_In. apply in_map_iff. now exists r.
  - now apply Hb.
Qed.

(** ** Key performance indicators *)



Lemma attrition_rate_total (v : DataFrame) : exists q : Q, attrition_rate v = Ok q.
Proof.
  unfold attrition_rate, truediv.
  destruct (0 <? total_employees v) eqn:E; [|now exists 0%Q].
  apply Z.ltb_lt in E.
  destruct (total_employees v =? 0) eqn:E0; [apply Z.eqb_eq in E0; lia|].
  simpl. eexists. reflexivity.
Qed.






(** ** Attrition by department *)

Lemma key_eqb_true (a b : string * string) : key_eqb a b = true <-> a = b.
Proof.
  destruct a as [a1 a2], b as [b1 b2]. unfold key_eqb. simpl.
  rewrite andb_true_iff, !String.eqb_eq. split.
  - intros [-> ->]. reflexivity.
  - intros H. inversion H. tauto.
Qed.

Lemma group_keys_length (l : list Employee) :
  List.length (group_keys l) = List.length (filter has_flag l).
Proof.
  unfold group_keys, group_key, has_flag.
  induction l as [|r l IH]; simpl; [reflexivity|].
  destruct (Attrition r); simpl; now rewrite IH.
Qed.

Lemma missing_flag_split (l : list Employee) :
  (List.length (filter has_flag l)
   + List.length (filter (fun r => negb (has_flag r)) l))%nat = List.length l.
Proof.
  induction l as [|r l IH]; simpl; [reflexivity|].
  destruct (has_flag r); simpl; lia.
Qed.

Lemma group_size_rows (d a : string) (l : list Employee) :
  group_size (d, a) l =
  List.length
    (filter (fun r : Employee =>
               String.eqb (Department r) d && cell_eq_str (Attrition r) a) l).
Proof.
  unfold group_size, group_keys, group_key.
  induction l as [|r l IH]; simpl; [reflexivity|].
  destruct (Attrition r) as [s|]; simpl.
  - unfold key_eqb at 1. simpl.
    rewrite (String.eqb_sym d), (String.eqb_sym a).
    destruct (String.eqb (Department r) d && String.eqb s a); simpl; now rewrite IH.
  - rewrite andb_false_r. exact IH.
Qed.

Lemma group_keys_In (k : string * string) (l : list Employee) :
  In k (group_keys l) <->
  exists r : Employee, In r l /\ Department r = fst k /\ Attrition r = Str (snd k).
Proof.
  unfold group_keys. rewrite in_flat_map. unfold group_key. split.
  - intros [r [Hr Hk]]. exists r. split; [assumption|].
    destruct (Attrition r); simpl in Hk; [|tauto].
    destruct Hk as [<-|[]]. simpl. tauto.
  - intros [r [Hr [Hd Ha]]]. exists r. split; [assumption|].
    rewrite Ha, Hd. left. now destruct k.
Qed.

Lemma attrition_dept_keys (v : DataFrame) :
  map (fun g => (fst (fst g), snd (fst g))) (attrition_dept v) =
  sort key_leb (uniq key_eqb (group_keys (rows v))).
Proof.
  unfold attrition_dept. rewrite map_map. simpl.
  erewrite map_ext; [apply map_id|]. intros [d a]. reflexivity.
Qed.

(** ** Running the script monad *)

Lemma bind_ok {A B : Type} (m : script A) (k : A -> script B) (a : A) (w w' : world) :
  m w = (Ok a, w') -> bind m k w = k a w'.
Proof. intros H. unfold bind. now rewrite H. Qed.

Lemma emit_run (x : element) (w : world) :
  emit x w = (Ok tt, mkWorld (session w) (page w ++ [x])).
Proof. reflexivity. Qed.

(** ** Correlation tab *)

Lemma numerical_cols_numeric (v : DataFrame) (c : string) :
  In c (numerical_cols v) -> exists f, numeric_field c = Some f.
Proof.
  unfold numerical_cols. rewrite filter_In. unfold is_numeric. intros [_ H].
  destruct (numeric_field c) as [f|]; [now exists f | discriminate].
Qed.

Lemma selected_cols_options (v : DataFrame) (pick : option (list string)) (c : string) :
  In c (selected_cols v pick) -> In c (numerical_cols v).
Proof.
  unfold selected_cols, multiselect, default_cols. destruct pick as [l|].
  - rewrite filter_In, mem_In. tauto.
  - rewrite filter_In. tauto.
Qed.

Lemma getitems_ok (v : DataFrame) (labels : list string) :
  (forall c, In c labels -> In c (numerical_cols v)) ->
  exists fields : list (Employee -> Z),
    getitems v labels = Ok fields /\
    Forall2 (fun c f => numeric_field c = Some f) labels fields.
Proof.
  unfold getitems. induction labels as [|c labels IH]; intros H; simpl.
  - exists []. split; [reflexivity | constructor].
  - destruct IH as [fields [Hf HF]]; [intros x Hx; apply H; now right|].
    assert (Hc : In c (numerical_cols v)) by (apply H; now left).
    destruct (numerical_cols_numeric v c Hc) as [f Ef]. rewrite Ef.
    apply mem_In in Hc. rewrite Hc. simpl. rewrite Hf. simpl.
    exists (f :: fields). split; [reflexivity | now constructor].
Qed.

Lemma tab3_run (v : DataFrame) (pick : option (list string)) (w : world) :
  match selected_cols v pick with
  | [] =>
      tab3 v pick w =
      (Ok tt,
       mkWorld (session w)
         (page w ++
          [st_subheader "Correlation Between Numerical Features";
           st_warning "Please select at least one feature to display the heatmap."]))
  | _ :: _ =>
      exists fields : list (Employee -> Z),
        Forall2 (fun c f => numeric_field c = Some f) (selected_cols v pick) fields /\
        tab3 v pick w =
        (Ok tt,
         mkWorld (session w)
           (page w ++
            [st_subheader "Correlation Between Numerical Features";
             st_plotly_chart
               (imshow (selected_cols v pick)
                  (map (fun f =>
                          map (fun g => pearson (series f (rows v)) (series g (rows v)))
                              fields)
                       fields))]))
  end.
Proof.
  destruct (getitems_ok v (selected_cols v pick) (selected_cols_options v pick))
    as [fields [Hg HF]].
  unfold tab3. destruct (selected_cols v pick) as [|c cs] eqn:Hs.
  - unfold bind, emit. simpl. now rewrite <- app_assoc.
  - exists fields. split; [exact HF|].
    unfold bind, emit, lift. simpl. rewrite Hg. simpl.
    now rewrite <- app_assoc.
Qed.

(** ** The analysis never raises *)

Lemma after_after (w : world) (p q : list element) :
  after (after w p) q = after w (p ++ q).
Proof. unfold after. simpl. now rewrite app_assoc. Qed.

Lemma emit_after (x : element) (w : world) : emit x w = (Ok tt, after w [x]).
Proof. reflexivity. Qed.

Lemma kpis_run (v : DataFrame) (q : Q) (w : world) :
  attrition_rate v = Ok q ->
  kpis v w =
  (Ok tt,
   after w [st_header "Key Performance Indicators";
            st_metric "Total Employees" (count_value (total_employees v));
            st_metric "Attrition Rate" (percent_value q);
            st_metric "Average Salary (INR)" (currency_value (avg_salary v))]).
Proof.
  intros Hq. unfold kpis, bind, lift. rewrite emit_after, Hq, !emit_after.
  now rewrite !after_after.
Qed.

Lemma tab1_run (v : DataFrame) (w : world) :
  tab1 v w =
  (Ok tt,
   after w [st_subheader "Attrition by Department";
            st_plotly_chart (bar_attrition (attrition_dept v));
            st_subheader "Job Roles in Technology Dept.";
            roles_element v]).
Proof.
  unfold tab1, roles_element, bind. rewrite !emit_after.
  destruct (rows (tech_df v)); rewrite emit_after, !after_after; reflexivity.
Qed.

Lemma tab2_run (v : DataFrame) (w : world) :
  tab2 v w =
  (Ok tt,
   after w [st_subheader "Gender Distribution";
            st_plotly_chart (pie_gender (gender_counts v));
            st_subheader "Salary Distribution";
            st_plotly_chart
              (histogram (map (fun r : Employee => SalaryINR r) (rows v)) 30);
            st_subheader "Salary vs. Years of Experience";
            st_plotly_chart
              (scatter (map (fun r : Employee =>
                               (YearsOfExperience r, SalaryINR r, Department r,
                                JobRole r, City r))
                            (rows v)))]).
Proof.
  unfold tab2, bind. rewrite !emit_after. now rewrite !after_after.
Qed.

Lemma raw_data_run (v : DataFrame) (w : world) :
  raw_data v w =
  (Ok tt,
   after w [st_subheader "Filtered Employee Data"; st_dataframe v; st_download_button v]).
Proof.
  unfold raw_data, bind. rewrite !emit_after. now rewrite !after_after.
Qed.

Lemma tab3_after (v : DataFrame) (pick : option (list string)) (w : world) :
  exists fields : list (Employee -> Z),
    Forall2 (fun c f => numeric_field c = Some f) (selected_cols v pick) fields /\
    tab3 v pick w =
    (Ok tt,
     after w [st_subheader "Correlation Between Numerical Features";
              heatmap_element v pick fields]).
Proof.
  pose proof (tab3_run v pick w) as H. unfold heatmap_element, after.
  destruct (getitems_ok v (selected_cols v pick) (selected_cols_options v pick))
    as [fields0 [_ HF0]].
  destruct (selected_cols v pick) as [|c cs].
  - exists fields0. split; [exact HF0 | exact H].
  - destruct H as [fields [HF H]]. exists fields. split; [exact HF | exact H].
Qed.

Lemma analysis_run (v : DataFrame) (pick : option (list string)) (w : world) :
  exists (q : Q) (fields : list (Employee -> Z)),
    attrition_rate v = Ok q /\
    Forall2 (fun c f => numeric_field c = Some f) (selected_cols v pick) fields /\
    analysis v pick w =
    (Ok tt,
     after w [st_header "Key Performance Indicators";
              st_metric "Total Employees" (count_value (total_employees v));
              st_metric "Attrition Rate" (percent_value q);
              st_metric "Average Salary (INR)" (currency_value (avg_salary v));
              st_subheader "Attrition by Department";
              st_plotly_chart (bar_attrition (attrition_dept v));
              st_subheader "Job Roles in Technology Dept.";
              roles_element v;
              st_subheader "Gender Distribution";
              st_plotly_chart (pie_gender (gender_counts v));
              st_subheader "Salary Distribution";
              st_plotly_chart
                (histogram (map (fun r : Employee => SalaryINR r) (rows v)) 30);
              st_subheader "Salary vs. Years of Experience";
              st_plotly_chart
                (scatter (map (fun r : Employee =>
                                 (YearsOfExperience r, SalaryINR r, Department r,
                                  JobRole r, City r))
                              (rows v)));
              st_subheader "Correlation Between Numerical Features";
              heatmap_element v pick fields;
              st_subheader "Filtered Employee Data";
              st_dataframe v;
              st_download_button v]).
Proof.
  destruct (attrition_rate_total v) as [q Hq].
  exists q.
  destruct (tab3_after v pick
              (after w ([st_header "Key Performance Indicators";
                 st_metric "Total Employees" (count_value (total_employees v));
                 st_metric "Attrition Rate" (percent_value q);
                 st_metric "Average Salary (INR)" (currency_value (avg_salary v))] ++
                [st_subheader "Attrition by Department";
                 st_plotly_chart (bar_attrition (attrition_dept v));
                 st_subheader "Job Roles in Technology Dept.";
                 roles_element v] ++
                [st_subheader "Gender Distribution";
                 st_plotly_chart (pie_gender (gender_counts v));
                 st_subheader "Salary Distribution";
                 st_plotly_chart
                   (histogram (map (fun r : Employee => SalaryINR r) (rows v)) 30);
                 st_subheader "Salary vs. Years of Experience";
                 st_plotly_chart
                   (scatter (map (fun r : Employee =>
                                    (YearsOfExperience r, SalaryINR r, Department r,
                                     JobRole r, City r))
                                 (rows v)))])))
    as [fields [HF H3]].
  exists fields. split; [exact Hq|]. split; [exact HF|].
  unfold analysis.
  rewrite (bind_ok _ _ _ _ _ (kpis_run v q w Hq)).
  rewrite (bind_ok _ _ _ _ _ (tab1_run v _)), after_after.
  rewrite (bind_ok _ _ _ _ _ (tab2_run v _)), after_after.
  rewrite <- app_assoc.
  rewrite (bind_ok _ _ _ _ _ H3), after_after.
  rewrite raw_data_run, after_after. reflexivity.
Qed.

(** ** A file without the identifier column *)

(** C4 fails for a file that lacks a required column other than the
    attrition column: the file without identifiers is loaded, nothing is
    reported, and the whole script runs to its end (no line reads the
    identifier column). *)
Lemma load_accepts_file_without_identifier :
  mem "EmployeeID" (tl header) = false /\
  (exists df : DataFrame,
      load_data no_id_fs "mock_imved_tech_data.csv" blank = (Ok (Some df), blank) /\
      List.length (rows df) = 3%nat) /\
  fst (run no_id_fs false None empty_session) = Ok tt.
Proof.
  split; [reflexivity|]. split.
  - eexists. split; reflexivity.
  - unfold run, main.
    assert (Hs : exists df, startup no_id_fs (mkWorld empty_session []) =
                            (Ok df, mkWorld empty_session []))
      by (eexists; reflexivity).
    destruct Hs as [df Hs]. rewrite (bind_ok _ _ _ _ _ Hs).
    rewrite (bind_ok _ _ _ _ _ (emit_after _ _)).
    assert (Hb : exists sel w', sidebar df false
                   (after (mkWorld empty_session [])
                      [st_markdown "IMVED Technologies Employee Analytics"]) = (Ok sel, w')).
    { cbv in Hs. injection Hs as <-. eexists. eexists. reflexivity. }
    destruct Hb as [sel [w' Hb]]. rewrite (bind_ok _ _ _ _ _ Hb).
    destruct (analysis_run (filtered_df df sel) None w') as [q [fields [_ [_ H]]]].
    rewrite H. reflexivity.
Qed.

(** ** The script on the sample file *)

Example sample_loaded :
  startup sample_fs blank = (Ok sample_df, blank).
Proof. reflexivity. Qed.

Example sample_filtered :
  rows (filtered_df sample_df (mkSelection ["Technology"] ["Pune"; "Delhi"] (0, 3))) =
  [mkEmployee asha 1].
Proof. reflexivity. Qed.

Example sample_attrition_rate :
  attrition_rate sample_df = Ok (inject_Z 1 / inject_Z 3 * 100)%Q.
Proof. reflexivity. Qed.

Example sample_attrition_dept :
  attrition_dept sample_df = [("Sales", "No", 1%nat); ("Technology", "Yes", 1%nat)].
Proof. reflexivity. Qed.

Example sample_reset_run :
  fst (sidebar sample_df true (mkWorld (mkSession (Some ["Sales"]) (Some []) (Some (4, 5))) [])) =
  Raise RerunException.
Proof. reflexivity. Qed.

(* ------------------------------------------------------------------ *)
(** * Further properties of the script *)

(** ** One run of the script *)

Lemma sidebar_false_run (df : DataFrame) (b : Z * Z) (w : world) :
  exp_bounds df = Ok b ->
  sidebar df false w =
  (Ok (selection_of df b (session w)),
   mkWorld (session_of (selection_of df b (session w)))
           (page w ++ [st_header "Filter Options"])).
Proof.
  intros Hb. destruct w as [[[d|] [c|] [e|]] pg];
    unfold sidebar, init_session, widget, bind, emit, get_session, put_session, lift, ret;
    simpl; rewrite Hb; reflexivity.
Qed.

Lemma sidebar_no_bounds (df : DataFrame) (clicked : bool) (w : world) :
  exp_bounds df = Raise ValueError ->
  fst (sidebar df clicked w) = Raise ValueError.
Proof.
  intros Hb. destruct clicked, w as [[[d|] [c|] [e|]] pg];
    unfold sidebar, reset_filters, init_session, widget, bind, emit, get_session,
      put_session, lift, ret, raise;
    simpl; rewrite Hb; reflexivity.
Qed.

Lemma startup_frame (fs : filesystem) (t : RawFrame) (w : world) :
  fs "mock_imved_tech_data.csv" = Table t ->
  mem "Attrition" (raw_columns t) = true ->
  startup fs w = (Ok (frame_of t), w).
Proof. intros Hf Hc. rewrite (startup_table fs t w Hf), Hc. reflexivity. Qed.

Lemma startup_ok_inv (fs : filesystem) (df : DataFrame) (w w' : world) :
  startup fs w = (Ok df, w') ->
  exists t : RawFrame,
    fs "mock_imved_tech_data.csv" = Table t /\
    mem "Attrition" (raw_columns t) = true /\ df = frame_of t /\ w' = w.
Proof.
  destruct (fs "mock_imved_tech_data.csv") as [| |t] eqn:Hf.
  - unfold startup, load_data, except_FileNotFoundError, bind, lift, ret, read_csv, emit,
      raise. rewrite Hf. simpl. discriminate.
  - unfold startup, load_data, except_FileNotFoundError, bind, lift, ret, read_csv.
    rewrite Hf. simpl. discriminate.
  - rewrite (startup_table fs t w Hf).
    destruct (mem "Attrition" (raw_columns t)) eqn:Hc; [|discriminate].
    intros H. injection H as <- <-. exists t. repeat split. exact Hc.
Qed.

Lemma main_sidebar
  (fs : filesystem) (t : RawFrame) (clicked : bool) (pick : option (list string)) (w : world) :
  fs "mock_imved_tech_data.csv" = Table t ->
  mem "Attrition" (raw_columns t) = true ->
  main fs clicked pick w =
  bind (sidebar (frame_of t) clicked)
       (fun s => analysis (filtered_df (frame_of t) s) pick)
       (after w [st_markdown "IMVED Technologies Employee Analytics"]).
Proof.
  intros Hf Hc. unfold main.
  rewrite (bind_ok _ _ _ _ _ (startup_frame fs t w Hf Hc)).
  rewrite (bind_ok _ _ _ _ _ (emit_after _ _)). reflexivity.
Qed.

Lemma main_false
  (fs : filesystem) (t : RawFrame) (b : Z * Z) (pick : option (list string)) (w : world) :
  fs "mock_imved_tech_data.csv" = Table t ->
  mem "Attrition" (raw_columns t) = true ->
  exp_bounds (frame_of t) = Ok b ->
  main fs false pick w =
  analysis (filtered_df (frame_of t) (selection_of (frame_of t) b (session w))) pick
    (mkWorld (session_of (selection_of (frame_of t) b (session w)))
       (page w ++ [st_markdown "IMVED Technologies Employee Analytics";
                   st_header "Filter Options"])).
Proof.
  intros Hf Hc Hb. rewrite (main_sidebar fs t false pick w Hf Hc).
  rewrite (bind_ok _ _ _ _ _ (sidebar_false_run (frame_of t) b _ Hb)).
  unfold after. simpl. now rewrite <- app_assoc.
Qed.

Lemma main_true
  (fs : filesystem) (t : RawFrame) (b : Z * Z) (pick : option (list string)) (w : world) :
  fs "mock_imved_tech_data.csv" = Table t ->
  mem "Attrition" (raw_columns t) = true ->
  exp_bounds (frame_of t) = Ok b ->
  main fs true pick w =
  (Raise RerunException,
   mkWorld (mkSession (Some (all_departments (frame_of t)))
                      (Some (all_cities (frame_of t))) (Some b))
     ((page w ++ [st_markdown "IMVED Technologies Employee Analytics"])
      ++ [st_header "Filter Options"])).
Proof.
  intros Hf Hc Hb. rewrite (main_sidebar fs t true pick w Hf Hc).
  unfold bind. rewrite (sidebar_reset (frame_of t) b _ Hb). reflexivity.
Qed.

Lemma main_no_rows
  (fs : filesystem) (t : RawFrame) (clicked : bool) (pick : option (list string)) (w : world) :
  fs "mock_imved_tech_data.csv" = Table t ->
  mem "Attrition" (raw_columns t) = true ->
  raw_lines t = [] ->
  fst (main fs clicked pick w) = Raise ValueError.
Proof.
  intros Hf Hc Hl. rewrite (main_sidebar fs t clicked pick w Hf Hc).
  assert (Hb : exp_bounds (frame_of t) = Raise ValueError).
  { apply exp_bounds_empty. unfold frame_of. simpl. now rewrite Hl. }
  pose proof (sidebar_no_bounds (frame_of t) clicked
                (after w [st_markdown "IMVED Technologies Employee Analytics"]) Hb) as H.
  unfold bind. destruct (sidebar (frame_of t) clicked _) as [[sel|e] w1]; simpl in H.
  - discriminate.
  - simpl. injection H as ->. reflexivity.
Qed.

Lemma frame_of_rows_nonempty (t : RawFrame) :
  raw_lines t <> [] -> rows (frame_of t) <> [].
Proof. unfold frame_of. simpl. destruct (raw_lines t); [congruence | discriminate]. Qed.

Lemma run_of_ok
  (fs : filesystem) (clicked : bool) (pick : option (list string)) (s : SessionState)
  (w : world) :
  main fs clicked pick (mkWorld s []) = (Ok tt, w) ->
  run fs clicked pick s = (Ok tt, w).
Proof. intros H. unfold run. now rewrite H. Qed.

Lemma main_absent
  (fs : filesystem) (clicked : bool) (pick : option (list string)) (w : world) :
  fs "mock_imved_tech_data.csv" = Absent ->
  fst (main fs clicked pick w) = Raise StopException.
Proof.
  intros Hf.
  unfold main, startup, load_data, except_FileNotFoundError, bind, lift, ret, read_csv,
    emit, raise.
  rewrite Hf. reflexivity.
Qed.

Lemma main_unparsable
  (fs : filesystem) (clicked : bool) (pick : option (list string)) (w : world) :
  fs "mock_imved_tech_data.csv" = Unparsable ->
  fst (main fs clicked pick w) = Raise ParserError.
Proof.
  intros Hf.
  unfold main, startup, load_data, except_FileNotFoundError, bind, lift, ret, read_csv.
  rewrite Hf. reflexivity.
Qed.

Lemma main_no_attrition
  (fs : filesystem) (t : RawFrame) (clicked : bool) (pick : option (list string))
  (w : world) :
  fs "mock_imved_tech_data.csv" = Table t ->
  mem "Attrition" (raw_columns t) = false ->
  fst (main fs clicked pick w) = Raise (KeyError "Attrition").
Proof.
  intros Hf Hc. unfold main, bind. rewrite (startup_table fs t w Hf), Hc. reflexivity.
Qed.

Lemma run_first_pass
  (fs : filesystem) (clicked : bool) (pick : option (list string)) (s : SessionState)
  (e : exn) :
  fst (main fs clicked pick (mkWorld s [])) = Raise e ->
  e <> RerunException ->
  fst (run fs clicked pick s) = Raise e.
Proof.
  intros H He. unfold run.
  destruct (main fs clicked pick (mkWorld s [])) as [[[]|e'] w1]; simpl in H;
    [discriminate|].
  injection H as ->. destruct e; try reflexivity. now elim He.
Qed.

Lemma main_false_ok
  (fs : filesystem) (t : RawFrame) (pick : option (list string)) (w : world) :
  fs "mock_imved_tech_data.csv" = Table t ->
  mem "Attrition" (raw_columns t) = true ->
  raw_lines t <> [] ->
  fst (main fs false pick w) = Ok tt.
Proof.
  intros Hf Hc Hl.
  destruct (exp_bounds_nonempty (frame_of t) (frame_of_rows_nonempty t Hl))
    as [lo [hi [Hb _]]].
  rewrite (main_false fs t (lo, hi) pick w Hf Hc Hb).
  destruct (analysis_run
              (filtered_df (frame_of t) (selection_of (frame_of t) (lo, hi) (session w)))
              pick
              (mkWorld (session_of (selection_of (frame_of t) (lo, hi) (session w)))
                 (page w ++ [st_markdown "IMVED Technologies Employee Analytics";
                             st_header "Filter Options"])))
    as [q [fields [_ [_ H]]]].
  now rewrite H.
Qed.

(** X4: on a file that loads into a table with at least one row, a click
    on the reset button gives, whatever the session state held, the same
    page and the same session state as the first run of a session. *)
Theorem reset_run_equals_first_run
  (fs : filesystem) (t : RawFrame) (pick : option (list string)) (s : SessionState) :
  fs "mock_imved_tech_data.csv" = Table t ->
  mem "Attrition" (raw_columns t) = true ->
  raw_lines t <> [] ->
  run fs true pick s = run fs false pick empty_session.
Proof.
  intros Hf Hc Hl.
  destruct (exp_bounds_nonempty (frame_of t) (frame_of_rows_nonempty t Hl))
    as [lo [hi [Hb _]]].
  unfold run at 1. rewrite (main_true fs t (lo, hi) pick _ Hf Hc Hb).
  cbv beta iota. simpl session.
  pose proof (main_false_ok fs t pick (mkWorld empty_session []) Hf Hc Hl) as Hok.
  unfold run.
  rewrite (main_false fs t (lo, hi) pick (mkWorld empty_session []) Hf Hc Hb) in *.
  rewrite (main_false fs t (lo, hi) pick _ Hf Hc Hb).
  simpl session in *. simpl page in *.
  change (selection_of (frame_of t) (lo, hi)
            (mkSession (Some (all_departments (frame_of t)))
                       (Some (all_cities (frame_of t))) (Some (lo, hi))))
    with (selection_of (frame_of t) (lo, hi) empty_session).
  destruct (analysis _ pick _) as [[[]|e] w1]; simpl in Hok;
    [reflexivity | discriminate].
Qed.

Lemma reset_run_equals_first_run_witness :
  run sample_fs true None (mkSession (Some ["Sales"]) (Some []) (Some (4, 5))) =
  run sample_fs false None empty_session.
Proof.
  apply (reset_run_equals_first_run sample_fs sample_raw None).
  - reflexivity.
  - reflexivity.
  - simpl. discriminate.
Defined.

(** ** Sorting and counting *)

Section SortFacts.

Context {A : Type} (leb : A -> A -> bool).
Hypothesis leb_total : forall a b : A, leb a b = true \/ leb b a = true.

Lemma insert_Sorted (x : A) (l : list A) :
  Sorted (fun a b => leb a b = true) l ->
  Sorted (fun a b => leb a b = true) (insert leb x l).
Proof.
  induction l as [|a l IH]; simpl; intros Hs.
  - repeat constructor.
  - destruct (leb x a) eqn:E.
    + constructor; [assumption | now constructor].
    + inversion Hs as [|? ? Hs' Hh]; subst. constructor; [now apply IH|].
      destruct l as [|b l']; simpl.
      * constructor. destruct (leb_total a x) as [H|H]; [exact H | congruence].
      * destruct (leb x b).
        -- constructor. destruct (leb_total a x) as [H|H]; [exact H | congruence].
        -- constructor. now inversion Hh.
Qed.

Lemma sort_Sorted (l : list A) : Sorted (fun a b => leb a b = true) (sort leb l).
Proof.
  induction l as [|x l IH]; simpl; [constructor | now apply insert_Sorted].
Qed.

End SortFacts.

Lemma Sorted_weaken {A : Type} (R R' : A -> A -> Prop) (l : list A) :
  (forall a b, R a b -> R' a b) -> Sorted R l -> Sorted R' l.
Proof.
  intros HR. induction 1 as [|a l Hs IH Hh]; constructor; [exact IH|].
  destruct Hh; constructor. now apply HR.
Qed.

Lemma occurrences_map {X : Type} (f : X -> string) (x : string) (l : list X) :
  occurrences x (map f l) = List.length (filter (fun r => String.eqb (f r) x) l).
Proof.
  unfold occurrences. induction l as [|r l IH]; simpl; [reflexivity|].
  rewrite (String.eqb_sym x). destruct (String.eqb (f r) x); simpl; now rewrite IH.
Qed.

Lemma value_counts_Permutation (l : list string) :
  Permutation (value_counts l) (map (fun x => (x, occurrences x l)) (unique l)).
Proof. apply sort_Permutation. Qed.

Lemma value_counts_In (l : list string) (x : string) (n : nat) :
  In (x, n) (value_counts l) <-> In x l /\ n = occurrences x l.
Proof.
  split.
  - intros H. apply (Permutation_in _ (value_counts_Permutation l)) in H.
    apply in_map_iff in H. destruct H as [y [E Hy]]. inversion E; subst.
    split; [now apply uniq_In | reflexivity].
  - intros [Hx ->].
    apply (Permutation_in _ (Permutation_sym (value_counts_Permutation l))).
    apply in_map_iff. exists x. split; [reflexivity | now apply uniq_In].
Qed.

Lemma value_counts_NoDup (l : list string) : NoDup (map fst (value_counts l)).
Proof.
  apply (Permutation_NoDup
           (Permutation_sym (Permutation_map fst (value_counts_Permutation l)))).
  rewrite map_map. simpl. rewrite map_id.
  apply (uniq_NoDup String.eqb String.eqb_eq).
Qed.

Lemma value_counts_sum (l : list string) :
  list_sum (map snd (value_counts l)) = List.length l.
Proof.
  rewrite (Permutation_map snd (value_counts_Permutation l)).
  rewrite map_map. simpl. unfold occurrences.
  apply (group_sizes_sum String.eqb String.eqb_eq).
  - apply (uniq_NoDup String.eqb String.eqb_eq).
  - intros x Hx. now apply uniq_In.
Qed.

Lemma occurrences_pos (x : string) (l : list string) :
  In x l -> (0 < occurrences x l)%nat.
Proof.
  intros H. unfold occurrences.
  assert (Hf : In x (filter (String.eqb x) l))
    by (apply filter_In; split; [assumption | apply String.eqb_refl]).
  destruct (filter (String.eqb x) l); [destruct Hf | simpl; lia].
Qed.

Lemma value_counts_Sorted (l : list string) :
  Sorted (fun a b : string * nat => (snd b <= snd a)%nat) (value_counts l).
Proof.
  unfold value_counts.
  apply (Sorted_weaken (fun a b : string * nat => Nat.leb (snd b) (snd a) = true)).
  - intros a b H. now apply Nat.leb_le.
  - apply (sort_Sorted (fun a b : string * nat => Nat.leb (snd b) (snd a))).
    intros a b. rewrite !Nat.leb_le. lia.
Qed.

Lemma sort_by_count_Sorted (l : list (string * nat)) :
  Sorted (fun a b : string * nat => (snd a <= snd b)%nat) (sort_by_count l).
Proof.
  unfold sort_by_count.
  apply (Sorted_weaken (fun a b : string * nat => Nat.leb (snd a) (snd b) = true)).
  - intros a b H. now apply Nat.leb_le.
  - apply (sort_Sorted (fun a b : string * nat => Nat.leb (snd a) (snd b))).
    intros a b. rewrite !Nat.leb_le. lia.
Qed.

(** ** The order of the groups *)

Lemma compare_Lt_trans (a b c : string) :
  String.compare a b = Lt -> String.compare b c = Lt -> String.compare a c = Lt.
Proof.
  intros H1 H2.
  apply OrderedTypeEx.String_as_OT.cmp_lt.
  apply OrderedTypeEx.String_as_OT.lt_trans with b;
    now apply OrderedTypeEx.String_as_OT.cmp_lt.
Qed.

Lemma compare_refl (a : string) : String.compare a a = Eq.
Proof. now apply OrderedTypeEx.String_as_OT.cmp_eq. Qed.

Lemma string_leb_cases (a b : string) :
  String.leb a b = true <-> String.compare a b = Lt \/ a = b.
Proof.
  unfold String.leb. destruct (String.compare a b) eqn:E.
  - apply String.compare_eq_iff in E. tauto.
  - tauto.
  - split; [discriminate|]. intros [H| ->]; [discriminate|].
    pose proof (compare_refl b) as E'.
    congruence.
Qed.

Lemma key_leb_cases (a b : string * string) :
  key_leb a b = true <-> key_lt a b \/ a = b.
Proof.
  unfold key_leb, key_lt. destruct a as [a1 a2], b as [b1 b2]. simpl.
  destruct (String.compare a1 b1) eqn:E.
  - apply String.compare_eq_iff in E. subst b1. rewrite string_leb_cases. split.
    + intros [H| ->]; [left; right; tauto | now right].
    + intros [[H|[_ H]]|H].
      * pose proof (compare_refl a1) as E'.
        congruence.
      * now left.
      * inversion H. now right.
  - split; [intros _; now left; left | reflexivity].
  - split; [discriminate|]. intros [[H|[H _]]|H].
    + discriminate.
    + subst b1.
      pose proof (compare_refl a1) as E'.
      congruence.
    + inversion H; subst.
      pose proof (compare_refl b1) as E'.
      congruence.
Qed.

Lemma key_lt_trans (a b c : string * string) : key_lt a b -> key_lt b c -> key_lt a c.
Proof.
  unfold key_lt. intros [H1|[E1 H1]] [H2|[E2 H2]].
  - left. now apply compare_Lt_trans with (fst b).
  - left. now rewrite <- E2.
  - left. now rewrite E1.
  - right. split; [congruence | now apply compare_Lt_trans with (snd b)].
Qed.

Lemma key_leb_trans (a b c : string * string) :
  key_leb a b = true -> key_leb b c = true -> key_leb a c = true.
Proof.
  rewrite !key_leb_cases. intros [H1| ->] [H2| ->]; auto.
  left. now apply key_lt_trans with b.
Qed.

Lemma key_leb_total (a b : string * string) :
  key_leb a b = true \/ key_leb b a = true.
Proof.
  unfold key_leb. rewrite (String.compare_antisym (fst a) (fst b)).
  destruct (String.compare (fst b) (fst a)); simpl; auto.
  apply String.leb_total.
Qed.

Lemma StronglySorted_strict {A : Type} (R : A -> A -> Prop) (l : list A) :
  StronglySorted R l -> NoDup l ->
  StronglySorted (fun a b => R a b /\ a <> b) l.
Proof.
  induction 1 as [|a l Hs IH Hf]; intros Hnd; constructor.
  - apply IH. now inversion Hnd.
  - inversion Hnd as [|? ? Hni _]; subst.
    rewrite Forall_forall in *. intros b Hb. split; [now apply Hf|].
    intros ->. now apply Hni.
Qed.

Lemma StronglySorted_weaken {A : Type} (R R' : A -> A -> Prop) (l : list A) :
  (forall a b, R a b -> R' a b) -> StronglySorted R l -> StronglySorted R' l.
Proof.
  intros HR. induction 1 as [|a l Hs IH Hf]; constructor; [exact IH|].
  eapply Forall_impl; [|exact Hf]. intros b. apply HR.
Qed.

(** X7: the groups of the attrition chart come in strictly ascending order
    of department and, within a department, of attrition value: every group
    is below every group listed after it. *)
Theorem attrition_dept_ascending (v : DataFrame) :
  StronglySorted key_lt
    (map (fun g : string * string * nat => (fst (fst g), snd (fst g))) (attrition_dept v)).
Proof.
  rewrite attrition_dept_keys.
  set (keys := uniq key_eqb (group_keys (rows v))).
  assert (Hs : StronglySorted (fun a b => key_leb a b = true) (sort key_leb keys)).
  { apply Sorted_StronglySorted.
    - intros a b c. apply key_leb_trans.
    - apply sort_Sorted. apply key_leb_total. }
  assert (Hnd : NoDup (sort key_leb keys)).
  { apply (Permutation_NoDup (Permutation_sym (sort_Permutation key_leb keys))).
    apply (uniq_NoDup key_eqb key_eqb_true). }
  apply (StronglySorted_weaken (fun a b => key_leb a b = true /\ a <> b)).
  - intros a b [H Hne]. apply key_leb_cases in H. tauto.
  - now apply StronglySorted_strict.
Qed.

(** ** Selections and views *)

Lemma filter_none {A : Type} (p : A -> bool) (l : list A) :
  (forall x, In x l -> p x = false) -> filter p l = [].
Proof.
  induction l as [|x l IH]; simpl; intros H; [reflexivity|].
  rewrite (H x (or_introl eq_refl)). apply IH. intros y Hy. apply H. now right.
Qed.

Lemma filter_filter_narrow {A : Type} (p q : A -> bool) (l : list A) :
  (forall x, q x = true -> p x = true) -> filter q (filter p l) = filter q l.
Proof.
  intros H. induction l as [|x l IH]; simpl; [reflexivity|].
  destruct (p x) eqn:Ep; simpl.
  - destruct (q x); now rewrite IH.
  - destruct (q x) eqn:Eq; [|exact IH]. rewrite (H x Eq) in Ep. discriminate.
Qed.

Lemma Subseq_length {A : Type} (l1 l2 : list A) :
  Subseq l1 l2 -> (List.length l1 <= List.length l2)%nat.
Proof. induction 1; simpl; lia. Qed.

(** X8: when Technology is not among the selected departments, the role
    chart is replaced by the "no data" message, whatever the table holds. *)
Theorem technology_deselected_no_data (df : DataFrame) (s : Selection) (w : world) :
  ~ In "Technology" (sel_departments s) ->
  rows (tech_df (filtered_df df s)) = [] /\
  tab1 (filtered_df df s) w =
  (Ok tt,
   after w [st_subheader "Attrition by Department";
            st_plotly_chart (bar_attrition (attrition_dept (filtered_df df s)));
            st_subheader "Job Roles in Technology Dept.";
            st_info "No data available for the Technology department with the current filters."]).
Proof.
  intros Hn.
  assert (He : rows (tech_df (filtered_df df s)) = []).
  { unfold tech_df, filtered_df. simpl. apply filter_none.
    intros r Hr. apply filter_In in Hr. destruct Hr as [_ Hk].
    apply keep_spec in Hk. destruct Hk as [Hd _].
    destruct (String.eqb_spec (Department r) "Technology") as [E|E]; [|reflexivity].
    rewrite E in Hd. contradiction. }
  split; [exact He|].
  rewrite tab1_run. unfold roles_element. now rewrite He.
Qed.

Lemma technology_deselected_no_data_witness :
  rows (tech_df (filtered_df sample_df (mkSelection ["Sales"] ["Pune"; "Delhi"] (0, 10)))) = [] /\
  tab1 (filtered_df sample_df (mkSelection ["Sales"] ["Pune"; "Delhi"] (0, 10))) blank =
  (Ok tt,
   after blank
     [st_subheader "Attrition by Department";
      st_plotly_chart
        (bar_attrition
           (attrition_dept
              (filtered_df sample_df (mkSelection ["Sales"] ["Pune"; "Delhi"] (0, 10)))));
      st_subheader "Job Roles in Technology Dept.";
      st_info "No data available for the Technology department with the current filters."]).
Proof.
  apply (technology_deselected_no_data sample_df
           (mkSelection ["Sales"] ["Pune"; "Delhi"] (0, 10)) blank).
  simpl. intros [H|[]]. discriminate H.
Defined.

(** X9: a selection with no department, or with no city, or with a range
    whose upper end is below its lower end, gives a view without rows, on
    which the total is 0, the attrition rate is 0 and the average salary
    is NaN. *)
Theorem empty_selection_empty_view (df : DataFrame) (s : Selection) :
  sel_departments s = [] \/ sel_cities s = [] \/ snd (sel_exp s) < fst (sel_exp s) ->
  rows (filtered_df df s) = [] /\
  total_employees (filtered_df df s) = 0 /\
  attrition_rate (filtered_df df s) = Ok 0%Q /\
  avg_salary (filtered_df df s) = nan.
Proof.
  intros H.
  assert (He : rows (filtered_df df s) = []).
  { unfold filtered_df. simpl. apply filter_none. intros r _.
    destruct (keep s r) eqn:Hk; [|reflexivity].
    apply keep_spec in Hk. destruct Hk as [Hd [Hc He]].
    destruct H as [H|[H|H]].
    - rewrite H in Hd. destruct Hd.
    - rewrite H in Hc. destruct Hc.
    - lia. }
  split; [exact He|].
  unfold attrition_rate, attrition_count, total_employees, avg_salary.
  rewrite He. repeat split; reflexivity.
Qed.

Lemma empty_selection_empty_view_witness :
  rows (filtered_df sample_df (mkSelection [] ["Pune"] (0, 10))) = [] /\
  total_employees (filtered_df sample_df (mkSelection [] ["Pune"] (0, 10))) = 0 /\
  attrition_rate (filtered_df sample_df (mkSelection [] ["Pune"] (0, 10))) = Ok 0%Q /\
  avg_salary (filtered_df sample_df (mkSelection [] ["Pune"] (0, 10))) = nan.
Proof.
  apply (empty_selection_empty_view sample_df (mkSelection [] ["Pune"] (0, 10))).
  left. reflexivity.
Defined.

(** X10: narrowing a selection only removes rows: when every department
    and city of the second selection is in the first and its range lies
    within the first one's, the second view is the first view with rows
    left out, it is what filtering the first view by the second selection
    gives, and its total is not larger. *)
Theorem narrower_selection_subview (df : DataFrame) (s s' : Selection) :
  (forall d, In d (sel_departments s') -> In d (sel_departments s)) ->
  (forall c, In c (sel_cities s') -> In c (sel_cities s)) ->
  fst (sel_exp s) <= fst (sel_exp s') ->
  snd (sel_exp s') <= snd (sel_exp s) ->
  filtered_df (filtered_df df s) s' = filtered_df df s' /\
  Subseq (rows (filtered_df df s')) (rows (filtered_df df s)) /\
  total_employees (filtered_df df s') <= total_employees (filtered_df df s).
Proof.
  intros Hd Hc Hlo Hhi.
  assert (He : filtered_df (filtered_df df s) s' = filtered_df df s').
  { unfold filtered_df. simpl. f_equal. apply filter_filter_narrow.
    intros r Hk. apply keep_spec in Hk. apply keep_spec.
    destruct Hk as [H1 [H2 H3]]. split; [now apply Hd|]. split; [now apply Hc | lia]. }
  assert (Hs : Subseq (rows (filtered_df df s')) (rows (filtered_df df s))).
  { rewrite <- He. unfold filtered_df at 1. simpl. apply filter_Subseq. }
  split; [exact He|]. split; [exact Hs|].
  unfold total_employees. apply inj_le. now apply Subseq_length.
Qed.

Lemma narrower_selection_subview_witness :
  filtered_df (filtered_df sample_df (mkSelection ["Technology"; "Sales"] ["Pune"] (0, 10)))
              (mkSelection ["Technology"] ["Pune"] (2, 4)) =
  filtered_df sample_df (mkSelection ["Technology"] ["Pune"] (2, 4)) /\
  Subseq (rows (filtered_df sample_df (mkSelection ["Technology"] ["Pune"] (2, 4))))
         (rows (filtered_df sample_df (mkSelection ["Technology"; "Sales"] ["Pune"] (0, 10)))) /\
  total_employees (filtered_df sample_df (mkSelection ["Technology"] ["Pune"] (2, 4))) <=
  total_employees (filtered_df sample_df (mkSelection ["Technology"; "Sales"] ["Pune"] (0, 10))).
Proof.
  apply (narrower_selection_subview sample_df
           (mkSelection ["Technology"; "Sales"] ["Pune"] (0, 10))
           (mkSelection ["Technology"] ["Pune"] (2, 4))).
  - simpl. intros d [H|[]]. now left.
  - simpl. tauto.
  - simpl. lia.
  - simpl. lia.
Defined.

(** ** The numeric mirror and the indicators *)

Lemma mirror_sum (l : list Employee) :
  (forall r, In r l -> AttritionNumeric r = attrition_numeric (Attrition r)) ->
  Series_sum (map AttritionNumeric l) =
  Z.of_nat (List.length (filter (fun r : Employee => cell_eq_str (Attrition r) "Yes") l)).
Proof.
  unfold Series_sum. induction l as [|r l IH]; intros H; [reflexivity|].
  simpl map. simpl fold_right. simpl filter.
  rewrite IH by (intros x Hx; apply H; now right).
  rewrite (H r (or_introl eq_refl)). unfold attrition_numeric.
  destruct (cell_eq_str (Attrition r) "Yes"); simpl List.length; lia.
Qed.

(** X11: in every view of a table the loader returned, the numeric mirror
    of each row is 0 or 1, and the mirror column adds up to the number of
    rows the attrition indicator counts. *)
Theorem mirror_sum_is_attrition_count
  (fs : filesystem) (df : DataFrame) (w w' : world) (s : Selection) :
  startup fs w = (Ok df, w') ->
  (forall r : Employee, In r (rows (filtered_df df s)) ->
     AttritionNumeric r = 0 \/ AttritionNumeric r = 1) /\
  Series_sum (map AttritionNumeric (rows (filtered_df df s))) =
  attrition_count (filtered_df df s).
Proof.
  intros Hs. apply startup_ok_inv in Hs. destruct Hs as [t [_ [_ [-> _]]]].
  assert (Hm : forall r, In r (rows (filtered_df (frame_of t) s)) ->
                         AttritionNumeric r = attrition_numeric (Attrition r)).
  { intros r Hr. unfold filtered_df, frame_of in Hr. simpl in Hr.
    apply filter_In in Hr. destruct Hr as [Hr _].
    apply in_map_iff in Hr. destruct Hr as [l [<- _]]. reflexivity. }
  split.
  - intros r Hr. rewrite (Hm r Hr). unfold attrition_numeric.
    destruct (cell_eq_str (Attrition r) "Yes"); auto.
  - unfold attrition_count. now apply mirror_sum.
Qed.

Lemma mirror_sum_is_attrition_count_witness :
  (forall r : Employee,
     In r (rows (filtered_df sample_df (mkSelection ["Technology"] ["Pune"] (0, 10)))) ->
     AttritionNumeric r = 0 \/ AttritionNumeric r = 1) /\
  Series_sum (map AttritionNumeric
                (rows (filtered_df sample_df (mkSelection ["Technology"] ["Pune"] (0, 10))))) =
  attrition_count (filtered_df sample_df (mkSelection ["Technology"] ["Pune"] (0, 10))).
Proof.
  apply (mirror_sum_is_attrition_count sample_fs sample_df blank blank
           (mkSelection ["Technology"] ["Pune"] (0, 10))).
  reflexivity.
Defined.

Lemma Series_sum_bounds (lo hi : Z) (l : list Z) :
  (forall x, In x l -> lo <= x <= hi) ->
  lo * Z.of_nat (List.length l) <= Series_sum l <= hi * Z.of_nat (List.length l).
Proof.
  unfold Series_sum. induction l as [|x l IH]; intros H.
  - simpl. lia.
  - simpl fold_right. simpl List.length. rewrite Nat2Z.inj_succ.
    pose proof (H x (or_introl eq_refl)).
    assert (IH' : lo * Z.of_nat (List.length l) <= fold_right Z.add 0 l
                  <= hi * Z.of_nat (List.length l))
      by (apply IH; intros y Hy; apply H; now right).
    lia.
Qed.

(** ** The options of the selectors *)

Lemma Subseq_trans {A : Type} (l1 l2 l3 : list A) :
  Subseq l1 l2 -> Subseq l2 l3 -> Subseq l1 l3.
Proof.
  intros H12 H23. revert l1 H12.
  induction H23 as [|x l2 l3 H IH|x l2 l3 H IH]; intros l1 H12.
  - exact H12.
  - apply Subseq_skip. now apply IH.
  - inversion H12; subst.
    + apply Subseq_skip. now apply IH.
    + apply Subseq_cons. now apply IH.
Qed.

Lemma uniq_Subseq (l : list string) : Subseq (unique l) l.
Proof.
  unfold unique. induction l as [|x l IH]; simpl; [apply Subseq_nil|].
  apply Subseq_cons.
  apply Subseq_trans with (uniq String.eqb l); [apply filter_Subseq | exact IH].
Qed.

(** X13: the options offered for departments and for cities are the values
    of the table's column without repetition, in the order in which they
    first appear in the table: every value of the column is an option, no
    option occurs twice, and the options are the column with entries left
    out. *)
Theorem selector_options_spec (df : DataFrame) :
  NoDup (all_departments df) /\
  Subseq (all_departments df) (map (fun r : Employee => Department r) (rows df)) /\
  (forall r : Employee, In r (rows df) -> In (Department r) (all_departments df)) /\
  NoDup (all_cities df) /\
  Subseq (all_cities df) (map (fun r : Employee => City r) (rows df)) /\
  (forall r : Employee, In r (rows df) -> In (City r) (all_cities df)).
Proof.
  unfold all_departments, all_cities.
  split; [apply (uniq_NoDup String.eqb String.eqb_eq)|].
  split; [apply uniq_Subseq|].
  split; [intros r Hr; apply uniq_In, in_map_iff; now exists r|].
  split; [apply (uniq_NoDup String.eqb String.eqb_eq)|].
  split; [apply uniq_Subseq|].
  intros r Hr. apply uniq_In, in_map_iff. now exists r.
Qed.

Lemma filter_map_comm {A B : Type} (f : A -> B) (p : B -> bool) (l : list A) :
  filter p (map f l) = map f (filter (fun x => p (f x)) l).
Proof.
  induction l as [|x l IH]; simpl; [reflexivity|].
  destruct (p (f x)); simpl; now rewrite IH.
Qed.

Lemma group_keys_yes (l : list Employee) :
  List.length (filter (fun k : string * string => String.eqb (snd k) "Yes") (group_keys l)) =
  List.length (filter (fun r : Employee => cell_eq_str (Attrition r) "Yes") l).
Proof.
  unfold group_keys, group_key. induction l as [|r l IH]; simpl; [reflexivity|].
  destruct (Attrition r) as [a|]; simpl; [|exact IH].
  destruct (String.eqb a "Yes"); simpl; now rewrite IH.
Qed.


(* ------------------------------------------------------------------ *)
(** * Properties of the script on any table *)

(** ** Cells, columns and the result type *)

Lemma value_eqb_true (a b : Dyn.value) : Dyn.value_eqb a b = true <-> a = b.
Proof.
  destruct a as [s|x|], b as [t|y|]; simpl; split; try discriminate; try reflexivity.
  - intros H. apply String.eqb_eq in H. now subst.
  - intros H. inversion H. apply String.eqb_refl.
  - intros H. apply Qc_eq_bool_correct in H. now subst.
  - intros H. inversion H. unfold Qc_eq_bool.
    destruct (Qc_eq_dec y y) as [_|N]; [reflexivity | now elim N].
Qed.

Lemma value_eqb_refl (a : Dyn.value) : Dyn.value_eqb a a = true.
Proof. now apply value_eqb_true. Qed.

Lemma rmap_ok {A B : Type} (f : A -> Dyn.result B) (g : A -> B) (l : list A) :
  (forall x, In x l -> f x = Dyn.Ok (g x)) -> Dyn.rmap f l = Dyn.Ok (map g l).
Proof.
  induction l as [|x l IH]; intros H; simpl; [reflexivity|].
  rewrite (H x (or_introl eq_refl)). simpl.
  rewrite IH by (intros y Hy; apply H; now right). reflexivity.
Qed.

Lemma select_map (p : Dyn.row -> bool) (l : list Dyn.row) :
  Dyn.select (map p l) l = filter p l.
Proof.
  induction l as [|r l IH]; simpl; [reflexivity|].
  destruct (p r); now rewrite IH.
Qed.

Lemma has_columns_mem (df : Dyn.DataFrame) (labels : list string) (c : string) :
  Dyn.has_columns df labels = true -> In c labels -> mem c (Dyn.columns df) = true.
Proof.
  unfold Dyn.has_columns. rewrite forallb_forall. intros H Hc. now apply H.
Qed.

Lemma getitem_ok (df : Dyn.DataFrame) (c : string) :
  mem c (Dyn.columns df) = true ->
  Dyn.getitem df c = Dyn.Ok (map (fun r : Dyn.row => r c) (Dyn.rows df)).
Proof. intros H. unfold Dyn.getitem. now rewrite H. Qed.

Lemma getitem_absent (df : Dyn.DataFrame) (c : string) :
  mem c (Dyn.columns df) = false ->
  Dyn.getitem df c = Dyn.Raise (Dyn.KeyError c).
Proof. intros H. unfold Dyn.getitem. now rewrite H. Qed.

(** ** Bounds of the years of experience *)

Lemma numbers_of_integers (col : list Dyn.value) :
  forallb Dyn.is_safe_integer col = true ->
  Dyn.numbers col = Dyn.Ok (map Dyn.number_of col).
Proof.
  induction col as [|x col IH]; simpl; [reflexivity|].
  rewrite andb_true_iff. intros [Hx Hc].
  destruct x as [s|q|]; simpl in Hx; try discriminate.
  rewrite (IH Hc). reflexivity.
Qed.

Lemma Qc_min_fold (x : Qc) (t : list Qc) :
  In (fold_right Dyn.Qc_min x t) (x :: t) /\
  forall y, In y (x :: t) -> (fold_right Dyn.Qc_min x t <= y)%Q.
Proof.
  induction t as [|a t [IHi IHl]]; simpl fold_right.
  - split; [now left|]. intros y [<-|[]]. apply Qle_refl.
  - set (m := fold_right Dyn.Qc_min x t) in *. unfold Dyn.Qc_min.
    destruct (Qle_bool a m) eqn:E.
    + apply Qle_bool_iff in E. split; [now right; left|].
      intros y [<-|[<-|Hy]].
      * apply Qle_trans with m; [exact E | apply IHl; now left].
      * apply Qle_refl.
      * apply Qle_trans with m; [exact E | apply IHl; now right].
    + assert (Hlt : (m <= a)%Q).
      { apply Qlt_le_weak. apply Qnot_le_lt. intros H.
        apply Qle_bool_iff in H. congruence. }
      split.
      * destruct IHi as [H|H]; [now left | now right; right].
      * intros y [<-|[<-|Hy]]; [apply IHl; now left | exact Hlt | apply IHl; now right].
Qed.

Lemma Qc_max_fold (x : Qc) (t : list Qc) :
  In (fold_right Dyn.Qc_max x t) (x :: t) /\
  forall y, In y (x :: t) -> (y <= fold_right Dyn.Qc_max x t)%Q.
Proof.
  induction t as [|a t [IHi IHl]]; simpl fold_right.
  - split; [now left|]. intros y [<-|[]]. apply Qle_refl.
  - set (m := fold_right Dyn.Qc_max x t) in *. unfold Dyn.Qc_max.
    destruct (Qle_bool a m) eqn:E.
    + apply Qle_bool_iff in E. split.
      * destruct IHi as [H|H]; [now left | now right; right].
      * intros y [<-|[<-|Hy]]; [apply IHl; now left | exact E | apply IHl; now right].
    + assert (Hlt : (m <= a)%Q).
      { apply Qlt_le_weak. apply Qnot_le_lt. intros H.
        apply Qle_bool_iff in H. congruence. }
      split; [now right; left|].
      intros y [<-|[<-|Hy]].
      * apply Qle_trans with m; [apply IHl; now left | exact Hlt].
      * apply Qle_refl.
      * apply Qle_trans with m; [apply IHl; now right | exact Hlt].
Qed.

Lemma integer_value (q : Q) : Z.pos (Qden q) = 1 -> (inject_Z (Qnum q) == q)%Q.
Proof.
  destruct q as [n d]. simpl. intros H. unfold Qeq, inject_Z. simpl.
  rewrite H. lia.
Qed.

Lemma integer_le (p q : Q) :
  Z.pos (Qden p) = 1 -> Z.pos (Qden q) = 1 -> (p <= q)%Q -> Qnum p <= Qnum q.
Proof.
  destruct p as [n d], q as [m e]. simpl. intros Hd He. unfold Qle. simpl.
  rewrite Hd, He. lia.
Qed.

Lemma safe_integer_inv (x : Dyn.value) :
  Dyn.is_safe_integer x = true ->
  exists q : Qc, x = Dyn.VNum q /\ Z.pos (Qden q) = 1 /\ Dyn.js_safe (Qnum q) = true.
Proof.
  destruct x as [s|q|]; cbn [Dyn.is_safe_integer]; try discriminate.
  intros H. apply andb_true_iff in H. destruct H as [H1 H2].
  apply Z.eqb_eq in H1. now exists q.
Qed.

Lemma int_of_integer (q : Qc) :
  Z.pos (Qden q) = 1 -> Dyn.int (fin q) = Dyn.Ok (Qnum q).
Proof. intros H. unfold Dyn.int. rewrite H. now rewrite Z.quot_1_r. Qed.

Lemma Series_min_cons (col : list Dyn.value) (x : Qc) (t : list Qc) :
  Dyn.numbers col = Dyn.Ok (x :: t) ->
  Dyn.Series_min col = Dyn.Ok (fin (fold_right Dyn.Qc_min x t)).
Proof. intros H. unfold Dyn.Series_min. now rewrite H. Qed.

Lemma Series_max_cons (col : list Dyn.value) (x : Qc) (t : list Qc) :
  Dyn.numbers col = Dyn.Ok (x :: t) ->
  Dyn.Series_max col = Dyn.Ok (fin (fold_right Dyn.Qc_max x t)).
Proof. intros H. unfold Dyn.Series_max. now rewrite H. Qed.

(** On a table with a row whose years of experience are integers, the
    bounds are the least and the greatest of them. *)
Lemma exp_bounds_integers (df : Dyn.DataFrame) :
  Dyn.rows df <> [] ->
  mem "YearsOfExperience" (Dyn.columns df) = true ->
  Dyn.safe_integers_at df "YearsOfExperience" = true ->
  exists lo hi : Z,
    Dyn.exp_bounds df = Dyn.Ok (lo, hi) /\
    Dyn.js_safe lo = true /\ Dyn.js_safe hi = true /\
    (forall r : Dyn.row, In r (Dyn.rows df) ->
       exists q : Qc,
         r "YearsOfExperience" = Dyn.VNum q /\ Z.pos (Qden q) = 1 /\
         lo <= Qnum q <= hi) /\
    (exists (r : Dyn.row) (q : Qc),
        In r (Dyn.rows df) /\ r "YearsOfExperience" = Dyn.VNum q /\
        Z.pos (Qden q) = 1 /\ Qnum q = lo) /\
    (exists (r : Dyn.row) (q : Qc),
        In r (Dyn.rows df) /\ r "YearsOfExperience" = Dyn.VNum q /\
        Z.pos (Qden q) = 1 /\ Qnum q = hi).
Proof.
  intros Hne Hc Hs.
  unfold Dyn.safe_integers_at in Hs. rewrite forallb_forall in Hs.
  set (col := map (fun r : Dyn.row => r "YearsOfExperience") (Dyn.rows df)).
  assert (Hcol : forallb Dyn.is_safe_integer col = true).
  { apply forallb_forall. intros x Hx. unfold col in Hx.
    apply in_map_iff in Hx. destruct Hx as [r [<- Hr]]. now apply Hs. }
  assert (Hin : forall q : Qc, In q (map Dyn.number_of col) ->
            exists r : Dyn.row,
              In r (Dyn.rows df) /\ r "YearsOfExperience" = Dyn.VNum q /\
              Z.pos (Qden q) = 1 /\ Dyn.js_safe (Qnum q) = true).
  { intros q Hq. apply in_map_iff in Hq. destruct Hq as [x [<- Hx]].
    unfold col in Hx. apply in_map_iff in Hx. destruct Hx as [r [<- Hr]].
    destruct (safe_integer_inv _ (Hs r Hr)) as [q [E [Hd Hj]]].
    exists r. rewrite E. simpl. auto. }
  assert (Hall : forall r : Dyn.row, In r (Dyn.rows df) ->
            exists q : Qc,
              r "YearsOfExperience" = Dyn.VNum q /\ Z.pos (Qden q) = 1 /\
              In q (map Dyn.number_of col)).
  { intros r Hr. destruct (safe_integer_inv _ (Hs r Hr)) as [q [E [Hd _]]].
    exists q. split; [exact E|]. split; [exact Hd|].
    apply in_map_iff. exists (r "YearsOfExperience"). split; [now rewrite E|].
    unfold col. apply in_map_iff. now exists r. }
  assert (Hnum := numbers_of_integers col Hcol).
  destruct (map Dyn.number_of col) as [|x t] eqn:Eq.
  { exfalso. destruct (Dyn.rows df) as [|r l]; [now apply Hne|].
    unfold col in Eq. discriminate Eq. }
  destruct (Qc_min_fold x t) as [Hmi Hml].
  destruct (Qc_max_fold x t) as [HMi HMl].
  destruct (Hin _ Hmi) as [rm [Hrm [Em [Hdm Hjm]]]].
  destruct (Hin _ HMi) as [rM [HrM [EM [HdM HjM]]]].
  exists (Qnum (fold_right Dyn.Qc_min x t)), (Qnum (fold_right Dyn.Qc_max x t)).
  split.
  { unfold Dyn.exp_bounds. rewrite (getitem_ok df _ Hc). fold col.
    cbn [Dyn.rbind]. rewrite (Series_min_cons _ _ _ Hnum). cbn [Dyn.rbind].
    rewrite (int_of_integer _ Hdm). cbn [Dyn.rbind].
    rewrite (Series_max_cons _ _ _ Hnum). cbn [Dyn.rbind].
    rewrite (int_of_integer _ HdM). reflexivity. }
  split; [exact Hjm|]. split; [exact HjM|].
  split; [|split].
  - intros r Hr. destruct (Hall r Hr) as [q [E [Hd Hq]]].
    exists q. split; [exact E|]. split; [exact Hd|]. split.
    + apply integer_le; [exact Hdm | exact Hd | now apply Hml].
    + apply integer_le; [exact Hd | exact HdM | now apply HMl].
  - exists rm. eexists. split; [exact Hrm|]. split; [exact Em|]. split; [exact Hdm | reflexivity].
  - exists rM. eexists. split; [exact HrM|]. split; [exact EM|]. split; [exact HdM | reflexivity].
Qed.

(** ** The sidebar *)

Lemma sidebar_reset_rerun (df : Dyn.DataFrame) (w : Dyn.world)
  (d c : list Dyn.value) (b : Z * Z) :
  Dyn.unique df "Department" = Dyn.Ok d ->
  Dyn.unique df "City" = Dyn.Ok c ->
  Dyn.exp_bounds df = Dyn.Ok b ->
  Dyn.sidebar df true w =
    (Dyn.Raise Dyn.RerunException,
     Dyn.mkWorld (Dyn.mkSession (Some d) (Some c) (Some b))
                 (Dyn.page w ++ [Dyn.st_header "Filter Options"])).
Proof.
  intros Hd Hc Hb.
  unfold Dyn.sidebar, Dyn.reset_filters, Dyn.bind, Dyn.lift, Dyn.emit,
    Dyn.get_session, Dyn.put_session, Dyn.raise.
  rewrite Hd, Hc, Hb. reflexivity.
Qed.

Lemma sidebar_filled (df : Dyn.DataFrame) (p : list Dyn.element)
  (d c : list Dyn.value) (b : Z * Z) :
  Dyn.unique df "Department" = Dyn.Ok d ->
  Dyn.unique df "City" = Dyn.Ok c ->
  Dyn.exp_bounds df = Dyn.Ok b ->
  Dyn.multiselect d d = Dyn.Ok d ->
  Dyn.multiselect c c = Dyn.Ok c ->
  Dyn.slider (fst b) (snd b) b = Dyn.Ok b ->
  Dyn.sidebar df false
    (Dyn.mkWorld (Dyn.mkSession (Some d) (Some c) (Some b)) p) =
    (Dyn.Ok (Dyn.mkSelection d c b),
     Dyn.mkWorld (Dyn.mkSession (Some d) (Some c) (Some b))
                 (p ++ [Dyn.st_header "Filter Options"])).
Proof.
  intros Hd Hc Hb Hmd Hmc Hs.
  unfold Dyn.sidebar, Dyn.init_session, Dyn.widget, Dyn.bind, Dyn.lift,
    Dyn.emit, Dyn.get_session, Dyn.put_session, Dyn.raise, Dyn.ret.
  cbn [Dyn.session Dyn.page Dyn.selected_departments Dyn.selected_cities
       Dyn.selected_exp].
  rewrite Hd, Hc, Hb, Hmd, Hmc, Hs. reflexivity.
Qed.

Lemma unique_ok (df : Dyn.DataFrame) (c : string) :
  mem c (Dyn.columns df) = true ->
  Dyn.unique df c =
    Dyn.Ok (uniq Dyn.value_eqb (map (fun r : Dyn.row => r c) (Dyn.rows df))).
Proof. intros H. unfold Dyn.unique. now rewrite (getitem_ok df c H). Qed.

Lemma unique_In (df : Dyn.DataFrame) (c : string) (x : Dyn.value) :
  In x (uniq Dyn.value_eqb (map (fun r : Dyn.row => r c) (Dyn.rows df))) <->
  exists r : Dyn.row, In r (Dyn.rows df) /\ r c = x.
Proof.
  rewrite (uniq_In_iff Dyn.value_eqb value_eqb_true), in_map_iff.
  split; intros [r [H1 H2]]; exists r; auto.
Qed.

Lemma isin_In (x : Dyn.value) (l : list Dyn.value) :
  Dyn.isin x l = true <-> In x l.
Proof.
  unfold Dyn.isin. rewrite existsb_exists. split.
  - intros [y [Hy E]]. apply value_eqb_true in E. now subst.
  - intros H. exists x. split; [exact H | apply value_eqb_refl].
Qed.

Lemma multiselect_all (options : list Dyn.value) :
  forallb Dyn.is_str options = true ->
  Dyn.multiselect options options = Dyn.Ok options.
Proof.
  intros H. unfold Dyn.multiselect. rewrite H.
  replace (forallb (fun x => existsb (Dyn.value_eqb x) options) options) with true;
    [reflexivity|].
  symmetry. apply forallb_forall. intros x Hx. now apply (isin_In x options).
Qed.

Lemma strings_unique (df : Dyn.DataFrame) (c : string) :
  Dyn.strings_at df c = true ->
  forallb Dyn.is_str
    (uniq Dyn.value_eqb (map (fun r : Dyn.row => r c) (Dyn.rows df))) = true.
Proof.
  unfold Dyn.strings_at. rewrite !forallb_forall. intros H x Hx.
  apply unique_In in Hx. destruct Hx as [r [Hr <-]]. now apply H.
Qed.

Lemma between_integer (q : Qc) (lo hi : Z) :
  Z.pos (Qden q) = 1 -> lo <= Qnum q <= hi ->
  Dyn.between (Dyn.VNum q) lo hi = Dyn.Ok true.
Proof.
  intros Hd [H1 H2]. unfold Dyn.between.
  replace (Qle_bool (inject_Z lo) q) with true.
  - replace (Qle_bool q (inject_Z hi)) with true; [reflexivity|].
    symmetry. apply Qle_bool_iff. unfold Qle. simpl. rewrite Hd. lia.
  - symmetry. apply Qle_bool_iff. unfold Qle. simpl. rewrite Hd. lia.
Qed.

(** A selection that every row meets gives the table itself. *)
Lemma filtered_df_all (df : Dyn.DataFrame) (s : Dyn.Selection) :
  Dyn.has_columns df ["Department"; "City"; "YearsOfExperience"] = true ->
  (forall r : Dyn.row, In r (Dyn.rows df) -> Dyn.keep s r = Dyn.Ok true) ->
  Dyn.filtered_df df s = Dyn.Ok df.
Proof.
  intros Hc Hk. unfold Dyn.filtered_df.
  rewrite (getitem_ok df "Department"),
          (getitem_ok df "City"),
          (getitem_ok df "YearsOfExperience")
    by (apply (has_columns_mem df _ _ Hc); simpl; tauto).
  cbn [Dyn.rbind].
  rewrite (rmap_ok (Dyn.keep s) (fun _ => true) (Dyn.rows df) Hk).
  cbn [Dyn.rbind]. rewrite select_map, filter_all by reflexivity.
  now destruct df.
Qed.

Lemma slider_full (lo hi : Z) :
  lo <= hi -> Dyn.js_safe lo = true -> Dyn.js_safe hi = true ->
  Dyn.slider lo hi (lo, hi) = Dyn.Ok (lo, hi).
Proof.
  intros H Hl Hh. unfold Dyn.slider. cbn [fst snd]. rewrite Hl, Hh.
  replace (lo <=? lo) with true by (symmetry; apply Z.leb_le; lia).
  replace (lo <=? hi) with true by (symmetry; apply Z.leb_le; lia).
  replace (hi <=? hi) with true by (symmetry; apply Z.leb_le; lia).
  reflexivity.
Qed.

(** One interaction with the reset button, once the handler and the
    sidebar of the second pass are known. *)
Lemma run_reset (lib : Dyn.Pandas) (df : Dyn.DataFrame)
  (pick : option (list string)) (s reset : Dyn.SessionState) (sel : Dyn.Selection) :
  (forall w, Dyn.sidebar df true w =
     (Dyn.Raise Dyn.RerunException,
      Dyn.mkWorld reset (Dyn.page w ++ [Dyn.st_header "Filter Options"]))) ->
  (forall p, Dyn.sidebar df false (Dyn.mkWorld reset p) =
     (Dyn.Ok sel, Dyn.mkWorld reset (p ++ [Dyn.st_header "Filter Options"]))) ->
  Dyn.filtered_df df sel = Dyn.Ok df ->
  Dyn.run lib df true pick s =
    Dyn.analysis lib df pick
      (Dyn.mkWorld reset
         [Dyn.st_markdown "IMVED Technologies Employee Analytics";
          Dyn.st_header "Filter Options"]).
Proof.
  intros H1 H2 H3. unfold Dyn.run, Dyn.body.
  unfold Dyn.bind at 1 2 3. unfold Dyn.emit at 1. cbn [Dyn.session Dyn.page app].
  rewrite H1. cbn [Dyn.session Dyn.page app].
  unfold Dyn.bind at 1 2 3. unfold Dyn.emit at 1. cbn [Dyn.session Dyn.page app].
  rewrite H2. cbn [app]. unfold Dyn.lift. rewrite H3. reflexivity.
Qed.

(** C2 (corrected): on a table that has at least one row, the columns
    Department, City and YearsOfExperience, a string in every department
    and city cell and an integer of magnitude at most 2^53 - 1 in every
    cell of years of experience, and from every prior session state, the
    handler of the reset button stores the distinct departments of the
    table, its distinct cities and the range from the least to the
    greatest years of experience, and asks for a rerun; on the rerun the
    widgets return exactly this selection, the filtered view is the table
    itself, and the rest of the script runs on the table. *)
Theorem reset_selects_every_row (lib : Dyn.Pandas) (df : Dyn.DataFrame)
  (pick : option (list string)) (w : Dyn.world) :
  Dyn.rows df <> [] ->
  Dyn.has_columns df ["Department"; "City"; "YearsOfExperience"] = true ->
  Dyn.strings_at df "Department" = true ->
  Dyn.strings_at df "City" = true ->
  Dyn.safe_integers_at df "YearsOfExperience" = true ->
  exists (deps cities : list Dyn.value) (lo hi : Z),
    let reset := Dyn.mkSession (Some deps) (Some cities) (Some (lo, hi)) in
    Dyn.sidebar df true w =
      (Dyn.Raise Dyn.RerunException,
       Dyn.mkWorld reset (Dyn.page w ++ [Dyn.st_header "Filter Options"])) /\
    (forall x : Dyn.value,
        In x deps <-> exists r : Dyn.row, In r (Dyn.rows df) /\ r "Department" = x) /\
    NoDup deps /\
    (forall x : Dyn.value,
        In x cities <-> exists r : Dyn.row, In r (Dyn.rows df) /\ r "City" = x) /\
    NoDup cities /\
    (forall r : Dyn.row, In r (Dyn.rows df) ->
       exists q : Qc,
         r "YearsOfExperience" = Dyn.VNum q /\ Z.pos (Qden q) = 1 /\
         lo <= Qnum q <= hi) /\
    (exists (r : Dyn.row) (q : Qc),
        In r (Dyn.rows df) /\ r "YearsOfExperience" = Dyn.VNum q /\
        Z.pos (Qden q) = 1 /\ Qnum q = lo) /\
    (exists (r : Dyn.row) (q : Qc),
        In r (Dyn.rows df) /\ r "YearsOfExperience" = Dyn.VNum q /\
        Z.pos (Qden q) = 1 /\ Qnum q = hi) /\
    Dyn.sidebar df false (Dyn.mkWorld reset []) =
      (Dyn.Ok (Dyn.mkSelection deps cities (lo, hi)),
       Dyn.mkWorld reset [Dyn.st_header "Filter Options"]) /\
    Dyn.filtered_df df (Dyn.mkSelection deps cities (lo, hi)) = Dyn.Ok df /\
    Dyn.run lib df true pick (Dyn.session w) =
      Dyn.analysis lib df pick
        (Dyn.mkWorld reset
           [Dyn.st_markdown "IMVED Technologies Employee Analytics";
            Dyn.st_header "Filter Options"]).
Proof.
  intros Hne Hcols Hsd Hsc Hint.
  assert (Hd := has_columns_mem df _ "Department" Hcols ltac:(simpl; tauto)).
  assert (Hc := has_columns_mem df _ "City" Hcols ltac:(simpl; tauto)).
  assert (Hy := has_columns_mem df _ "YearsOfExperience" Hcols ltac:(simpl; tauto)).
  destruct (exp_bounds_integers df Hne Hy Hint)
    as [lo [hi [Hb [Hjl [Hjh [Hall [Hlo Hhi]]]]]]].
  set (deps := uniq Dyn.value_eqb (map (fun r : Dyn.row => r "Department") (Dyn.rows df))).
  set (cities := uniq Dyn.value_eqb (map (fun r : Dyn.row => r "City") (Dyn.rows df))).
  assert (Hle : lo <= hi).
  { destruct Hlo as [r [q [Hr _]]]. destruct (Hall r Hr) as [q' [_ [_ H]]]. lia. }
  assert (Hud : Dyn.unique df "Department" = Dyn.Ok deps) by now apply unique_ok.
  assert (Huc : Dyn.unique df "City" = Dyn.Ok cities) by now apply unique_ok.
  assert (Hmd : Dyn.multiselect deps deps = Dyn.Ok deps)
    by (apply multiselect_all; now apply strings_unique).
  assert (Hmc : Dyn.multiselect cities cities = Dyn.Ok cities)
    by (apply multiselect_all; now apply strings_unique).
  assert (Hsl : Dyn.slider (fst (lo, hi)) (snd (lo, hi)) (lo, hi) = Dyn.Ok (lo, hi))
    by now apply slider_full.
  assert (Hview : Dyn.filtered_df df (Dyn.mkSelection deps cities (lo, hi)) = Dyn.Ok df).
  { apply filtered_df_all; [exact Hcols|]. intros r Hr.
    destruct (Hall r Hr) as [q [E [Hq Hr']]].
    unfold Dyn.keep. cbn [Dyn.sel_exp Dyn.sel_departments Dyn.sel_cities fst snd].
    rewrite E, (between_integer q lo hi Hq Hr'). cbn [Dyn.rbind].
    replace (Dyn.isin (r "Department") deps) with true.
    - replace (Dyn.isin (r "City") cities) with true; [reflexivity|].
      symmetry. apply isin_In. apply unique_In. now exists r.
    - symmetry. apply isin_In. apply unique_In. now exists r. }
  exists deps, cities, lo, hi. cbv zeta.
  split; [now apply sidebar_reset_rerun|].
  split; [intros x; apply unique_In|].
  split; [apply (uniq_NoDup Dyn.value_eqb value_eqb_true)|].
  split; [intros x; apply unique_In|].
  split; [apply (uniq_NoDup Dyn.value_eqb value_eqb_true)|].
  split; [exact Hall|]. split; [exact Hlo|]. split; [exact Hhi|].
  split; [now apply (sidebar_filled df [])|].
  split; [exact Hview|].
  apply run_reset with (sel := Dyn.mkSelection deps cities (lo, hi)).
  - intros w'. now apply sidebar_reset_rerun.
  - intros p. now apply sidebar_filled.
  - exact Hview.
Qed.

Lemma reset_selects_every_row_witness :
  Dyn.rows Dyn.sample_df <> [] /\
  Dyn.has_columns Dyn.sample_df ["Department"; "City"; "YearsOfExperience"] = true /\
  Dyn.strings_at Dyn.sample_df "Department" = true /\
  Dyn.strings_at Dyn.sample_df "City" = true /\
  Dyn.safe_integers_at Dyn.sample_df "YearsOfExperience" = true /\
  exists (deps cities : list Dyn.value) (lo hi : Z),
    Dyn.sidebar Dyn.sample_df true
      (Dyn.mkWorld (Dyn.mkSession (Some [Dyn.VStr "Sales"]) (Some []) (Some (4, 5))) []) =
      (Dyn.Raise Dyn.RerunException,
       Dyn.mkWorld (Dyn.mkSession (Some deps) (Some cities) (Some (lo, hi)))
                   [Dyn.st_header "Filter Options"]) /\
    Dyn.filtered_df Dyn.sample_df (Dyn.mkSelection deps cities (lo, hi)) =
      Dyn.Ok Dyn.sample_df.
Proof.
  assert (H1 : Dyn.rows Dyn.sample_df <> []) by discriminate.
  assert (H2 : Dyn.has_columns Dyn.sample_df
                 ["Department"; "City"; "YearsOfExperience"] = true) by reflexivity.
  assert (H3 : Dyn.strings_at Dyn.sample_df "Department" = true) by reflexivity.
  assert (H4 : Dyn.strings_at Dyn.sample_df "City" = true) by reflexivity.
  assert (H5 : Dyn.safe_integers_at Dyn.sample_df "YearsOfExperience" = true)
    by reflexivity.
  repeat (split; [assumption|]).
  destruct (reset_selects_every_row Dyn.sample_lib Dyn.sample_df None
              (Dyn.mkWorld (Dyn.mkSession (Some [Dyn.VStr "Sales"]) (Some []) (Some (4, 5))) [])
              H1 H2 H3 H4 H5)
    as [deps [cities [lo [hi H]]]].
  exists deps, cities, lo, hi.
  split; [exact (proj1 H)|].
  exact (proj1 (proj2 (proj2 (proj2 (proj2 (proj2 (proj2 (proj2 (proj2 (proj2 H)))))))))).
Defined.

(** The reset button on a table without rows raises; on a table in which
    a row has no years of experience it selects a range that leaves this
    row out of the view. *)
Lemma reset_needs_rows_and_integers :
  fst (Dyn.sidebar Dyn.header_only true Dyn.blank) = Dyn.Raise Dyn.ValueError /\
  fst (Dyn.run Dyn.sample_lib Dyn.header_only true None Dyn.empty_session) =
    Dyn.Raise Dyn.ValueError /\
  Dyn.sidebar Dyn.sample_gap true Dyn.blank =
    (Dyn.Raise Dyn.RerunException,
     Dyn.mkWorld
       (Dyn.mkSession (Some [Dyn.VStr "Technology"; Dyn.VStr "Sales"])
                      (Some [Dyn.VStr "Pune"; Dyn.VStr "Delhi"])
                      (Some (3, 7)))
       [Dyn.st_header "Filter Options"]) /\
  Dyn.filtered_df Dyn.sample_gap
    (Dyn.mkSelection [Dyn.VStr "Technology"; Dyn.VStr "Sales"]
                     [Dyn.VStr "Pune"; Dyn.VStr "Delhi"] (3, 7)) =
    Dyn.Ok (Dyn.mkFrame Dyn.gap_dtypes [Dyn.asha; Dyn.ravi]) /\
  Dyn.rows Dyn.sample_gap = [Dyn.asha; Dyn.ravi; Dyn.tara].
Proof. repeat split; reflexivity. Qed.

(** ** Attrition by department *)

Lemma pair_eqb_true (a b : Dyn.value * Dyn.value) : Dyn.key_eqb a b = true <-> a = b.
Proof.
  destruct a as [a1 a2], b as [b1 b2]. unfold Dyn.key_eqb. simpl.
  rewrite andb_true_iff, !value_eqb_true. split.
  - intros [-> ->]. reflexivity.
  - intros H. inversion H. auto.
Qed.

Lemma value_eqb_sym (a b : Dyn.value) : Dyn.value_eqb a b = Dyn.value_eqb b a.
Proof.
  destruct (Dyn.value_eqb a b) eqn:E1, (Dyn.value_eqb b a) eqn:E2; try reflexivity.
  - apply value_eqb_true in E1. subst. rewrite value_eqb_refl in E2. discriminate.
  - apply value_eqb_true in E2. subst. rewrite value_eqb_refl in E1. discriminate.
Qed.

Lemma group_key_some (r : Dyn.row) (k : Dyn.value * Dyn.value) :
  Dyn.group_key r = Some k <->
  r "Department" = fst k /\ r "Attrition" = snd k /\
  r "Department" <> Dyn.VNaN /\ r "Attrition" <> Dyn.VNaN.
Proof.
  unfold Dyn.group_key. destruct k as [d a]. simpl.
  destruct (r "Department") as [s|x|], (r "Attrition") as [t|y|]; split;
    try discriminate;
    try (intros H; inversion H; repeat split; discriminate);
    try (intros [H1 [H2 [H3 H4]]]; subst; try reflexivity; try (now elim H3); now elim H4).
Qed.

Lemma group_key_none (r : Dyn.row) :
  Dyn.group_key r = None <->
  r "Department" = Dyn.VNaN \/ r "Attrition" = Dyn.VNaN.
Proof.
  unfold Dyn.group_key.
  destruct (r "Department") as [s|x|], (r "Attrition") as [t|y|]; split;
    try discriminate; try tauto; intros [H|H]; discriminate.
Qed.

Lemma dyn_group_keys_In (k : Dyn.value * Dyn.value) (l : list Dyn.row) :
  In k (Dyn.group_keys l) <-> exists r : Dyn.row, In r l /\ Dyn.group_key r = Some k.
Proof.
  unfold Dyn.group_keys. rewrite in_flat_map. split.
  - intros [r [Hr Hk]]. exists r. split; [exact Hr|].
    destruct (Dyn.group_key r) as [k'|]; simpl in Hk; [|tauto].
    destruct Hk as [<-|[]]. reflexivity.
  - intros [r [Hr Hk]]. exists r. split; [exact Hr|]. rewrite Hk. now left.
Qed.

Lemma dyn_group_keys_length (l : list Dyn.row) :
  List.length (Dyn.group_keys l) =
  List.length (filter (fun r : Dyn.row =>
                         Dyn.notna (r "Department") && Dyn.notna (r "Attrition")) l).
Proof.
  induction l as [|r l IH]; simpl; [reflexivity|].
  unfold Dyn.group_key.
  destruct (r "Department") as [s|x|], (r "Attrition") as [t|y|]; simpl;
    now rewrite IH.
Qed.

Lemma dyn_group_size_rows (d a : Dyn.value) (l : list Dyn.row) :
  d <> Dyn.VNaN -> a <> Dyn.VNaN ->
  Dyn.group_size (d, a) l =
  List.length (filter (fun r : Dyn.row =>
                         Dyn.value_eqb (r "Department") d
                         && Dyn.value_eqb (r "Attrition") a) l).
Proof.
  intros Hd Ha. unfold Dyn.group_size.
  induction l as [|r l IH]; simpl; [reflexivity|].
  destruct (Dyn.group_key r) as [k|] eqn:E.
  - apply group_key_some in E. destruct E as [E1 [E2 _]].
    simpl. unfold Dyn.key_eqb at 1. simpl.
    rewrite <- E1, <- E2, (value_eqb_sym d), (value_eqb_sym a).
    destruct (Dyn.value_eqb (r "Department") d && Dyn.value_eqb (r "Attrition") a);
      simpl; now rewrite IH.
  - apply group_key_none in E. simpl.
    replace (Dyn.value_eqb (r "Department") d && Dyn.value_eqb (r "Attrition") a)
      with false; [exact IH|].
    symmetry. apply andb_false_iff.
    destruct E as [E|E]; rewrite E; [left | right].
    + destruct d; try reflexivity. now elim Hd.
    + destruct a; try reflexivity. now elim Ha.
Qed.

(** C5 (corrected): on every view that has the columns Department and
    Attrition, the aggregation returns one group for each pair of a
    department and an attrition value that occurs in a row in which both
    cells are present, each pair once; the count of a group is the number
    of rows of the view with this department and this attrition value and
    is never zero; a row in which the department or the attrition cell is
    missing belongs to no group, so the counts add up to the number of
    rows in which both cells are present, which is the total row count
    when no such cell is missing. *)
Theorem attrition_dept_groups (lib : Dyn.Pandas) (v : Dyn.DataFrame) :
  Dyn.has_columns v ["Department"; "Attrition"] = true ->
  exists data : list (Dyn.value * Dyn.value * nat),
    Dyn.attrition_dept lib v = Dyn.Ok data /\
    list_sum (map snd data) =
      List.length
        (filter (fun r : Dyn.row =>
                   Dyn.notna (r "Department") && Dyn.notna (r "Attrition"))
                (Dyn.rows v)) /\
    ((forall r : Dyn.row, In r (Dyn.rows v) ->
        r "Department" <> Dyn.VNaN /\ r "Attrition" <> Dyn.VNaN) ->
     Z.of_nat (list_sum (map snd data)) = Dyn.total_employees v) /\
    (forall (d a : Dyn.value) (n : nat), In (d, a, n) data ->
       d <> Dyn.VNaN /\ a <> Dyn.VNaN /\ (0 < n)%nat /\
       n = List.length
             (filter (fun r : Dyn.row =>
                        Dyn.value_eqb (r "Department") d
                        && Dyn.value_eqb (r "Attrition") a)
                     (Dyn.rows v))) /\
    (forall r : Dyn.row, In r (Dyn.rows v) ->
       r "Department" <> Dyn.VNaN -> r "Attrition" <> Dyn.VNaN ->
       exists n : nat, In (r "Department", r "Attrition", n) data) /\
    NoDup (map fst data).
Proof.
  intros Hcols.
  assert (Hd := has_columns_mem v _ "Department" Hcols ltac:(simpl; tauto)).
  assert (Ha := has_columns_mem v _ "Attrition" Hcols ltac:(simpl; tauto)).
  set (keys := Dyn.group_keys (Dyn.rows v)).
  set (ks := Dyn.groupby_order lib (uniq Dyn.key_eqb keys)).
  assert (Hperm : Permutation ks (uniq Dyn.key_eqb keys))
    by apply Dyn.groupby_order_perm.
  assert (Hnd : NoDup ks).
  { apply (Permutation_NoDup (Permutation_sym Hperm)).
    apply (uniq_NoDup Dyn.key_eqb pair_eqb_true). }
  assert (Hin : forall k, In k ks <-> In k keys).
  { intros k. rewrite <- (uniq_In_iff Dyn.key_eqb pair_eqb_true k keys). split.
    - apply (Permutation_in k Hperm).
    - apply (Permutation_in k (Permutation_sym Hperm)). }
  assert (Hsum : list_sum (map snd
             (map (fun k => (fst k, snd k, Dyn.group_size k (Dyn.rows v))) ks)) =
           List.length
             (filter (fun r : Dyn.row =>
                        Dyn.notna (r "Department") && Dyn.notna (r "Attrition"))
                     (Dyn.rows v))).
  { rewrite map_map. cbn [snd]. unfold Dyn.group_size. fold keys.
    rewrite (group_sizes_sum Dyn.key_eqb pair_eqb_true keys ks Hnd)
      by (intros x Hx; now apply Hin).
    apply dyn_group_keys_length. }
  exists (map (fun k => (fst k, snd k, Dyn.group_size k (Dyn.rows v))) ks).
  split.
  { unfold Dyn.attrition_dept.
    rewrite (getitem_ok v _ Hd), (getitem_ok v _ Ha). reflexivity. }
  split; [exact Hsum|].
  split.
  { intros Hall. rewrite Hsum. unfold Dyn.total_employees. f_equal. f_equal.
    apply filter_all. intros r Hr. destruct (Hall r Hr) as [H1 H2].
    destruct (r "Department"), (r "Attrition"); try reflexivity;
      try (now elim H1); now elim H2. }
  split.
  { intros d a n Hn. apply in_map_iff in Hn. destruct Hn as [k [Ek Hk]].
    inversion Ek; subst d a n. clear Ek.
    apply Hin in Hk. assert (Hk' := Hk).
    apply dyn_group_keys_In in Hk. destruct Hk as [r [Hr Er]].
    apply group_key_some in Er. destruct Er as [E1 [E2 [N1 N2]]].
    rewrite E1 in N1. rewrite E2 in N2.
    split; [exact N1|]. split; [exact N2|]. split.
    - unfold Dyn.group_size. fold keys.
      assert (Hf : In k (filter (Dyn.key_eqb k) keys)).
      { apply filter_In. split; [exact Hk'|]. now apply pair_eqb_true. }
      destruct (filter (Dyn.key_eqb k) keys); [destruct Hf | simpl; lia].
    - rewrite <- (dyn_group_size_rows (fst k) (snd k) (Dyn.rows v) N1 N2).
      now destruct k. }
  split.
  { intros r Hr N1 N2.
    exists (Dyn.group_size (r "Department", r "Attrition") (Dyn.rows v)).
    apply in_map_iff. exists (r "Department", r "Attrition").
    split; [reflexivity|]. apply Hin. apply dyn_group_keys_In.
    exists r. split; [exact Hr|]. apply group_key_some. simpl. tauto. }
  rewrite map_map. cbn [fst].
  rewrite (map_ext _ (fun k => k)) by (intros [d a]; reflexivity).
  now rewrite map_id.
Qed.

Lemma attrition_dept_groups_witness :
  Dyn.has_columns Dyn.sample_df ["Department"; "Attrition"] = true /\
  exists data : list (Dyn.value * Dyn.value * nat),
    Dyn.attrition_dept Dyn.sample_lib Dyn.sample_df = Dyn.Ok data /\
    list_sum (map snd data) = 2%nat.
Proof.
  split; [reflexivity|].
  destruct (attrition_dept_groups Dyn.sample_lib Dyn.sample_df eq_refl)
    as [data [H1 [H2 _]]].
  exists data. split; [exact H1 | exact H2].
Defined.

(** A view of one row whose attrition cell is missing: one row, no group. *)
Lemma attrition_dept_skips_missing :
  Dyn.attrition_dept Dyn.sample_lib (Dyn.mkFrame Dyn.sample_dtypes [Dyn.meera]) =
    Dyn.Ok [] /\
  Dyn.total_employees (Dyn.mkFrame Dyn.sample_dtypes [Dyn.meera]) = 1.
Proof. split; reflexivity. Qed.

(** ** Running the script on a view *)

Lemma dyn_after_after (w : Dyn.world) (p q : list Dyn.element) :
  Dyn.after (Dyn.after w p) q = Dyn.after w (p ++ q).
Proof. unfold Dyn.after. simpl. now rewrite app_assoc. Qed.

Lemma dyn_emit_after (x : Dyn.element) (w : Dyn.world) :
  Dyn.emit x w = (Dyn.Ok tt, Dyn.after w [x]).
Proof. reflexivity. Qed.

Lemma dyn_bind_ok {A B : Type} (m : Dyn.script A) (k : A -> Dyn.script B)
  (a : A) (w w' : Dyn.world) :
  m w = (Dyn.Ok a, w') -> Dyn.bind m k w = k a w'.
Proof. intros H. unfold Dyn.bind. now rewrite H. Qed.

Lemma dyn_lift_ok {A B : Type} (r : Dyn.result A) (k : A -> Dyn.script B)
  (a : A) (w : Dyn.world) :
  r = Dyn.Ok a -> Dyn.bind (Dyn.lift r) k w = k a w.
Proof. intros ->. reflexivity. Qed.

Lemma dyn_kpis_run (lib : Dyn.Pandas) (v : Dyn.DataFrame) (w : Dyn.world)
  (c : Z) (q a : float) :
  Dyn.attrition_count v = Dyn.Ok c ->
  Dyn.attrition_rate lib c (Dyn.total_employees v) = Dyn.Ok q ->
  Dyn.avg_salary lib v = Dyn.Ok a ->
  Dyn.kpis lib v w =
    (Dyn.Ok tt,
     Dyn.after w
       [Dyn.st_header "Key Performance Indicators";
        Dyn.st_metric "Total Employees" (Dyn.count_value (Dyn.total_employees v));
        Dyn.st_metric "Attrition Rate" (Dyn.percent_value q);
        Dyn.st_metric "Average Salary (INR)" (Dyn.currency_value a)]).
Proof.
  intros Hc Hq Ha. unfold Dyn.kpis, Dyn.bind, Dyn.lift.
  rewrite dyn_emit_after, Hc, Hq, Ha, !dyn_emit_after.
  now rewrite ?dyn_after_after.
Qed.

Lemma dyn_tab1_info (lib : Dyn.Pandas) (v : Dyn.DataFrame) (w : Dyn.world)
  (data : list (Dyn.value * Dyn.value * nat)) :
  Dyn.attrition_dept lib v = Dyn.Ok data ->
  mem "Department" (Dyn.columns v) = true ->
  Dyn.tech_rows v = [] ->
  Dyn.tab1 lib v w =
    (Dyn.Ok tt,
     Dyn.after w
       [Dyn.st_subheader "Attrition by Department";
        Dyn.st_plotly_chart (Dyn.bar_attrition data);
        Dyn.st_subheader "Job Roles in Technology Dept.";
        Dyn.st_info "No data available for the Technology department with the current filters."]).
Proof.
  intros Hd Hc Ht. unfold Dyn.tab1, Dyn.bind, Dyn.lift.
  rewrite dyn_emit_after, Hd, !dyn_emit_after, (getitem_ok v _ Hc), Ht.
  rewrite dyn_emit_after. now rewrite ?dyn_after_after.
Qed.

Lemma dyn_tab1_chart (lib : Dyn.Pandas) (v : Dyn.DataFrame) (w : Dyn.world)
  (data : list (Dyn.value * Dyn.value * nat)) :
  Dyn.attrition_dept lib v = Dyn.Ok data ->
  mem "Department" (Dyn.columns v) = true ->
  mem "JobRole" (Dyn.columns v) = true ->
  Dyn.tech_rows v <> [] ->
  Dyn.tab1 lib v w =
    (Dyn.Ok tt,
     Dyn.after w
       [Dyn.st_subheader "Attrition by Department";
        Dyn.st_plotly_chart (Dyn.bar_attrition data);
        Dyn.st_subheader "Job Roles in Technology Dept.";
        Dyn.st_plotly_chart
          (Dyn.bar_roles
             (Dyn.sort_values_order lib
                (Dyn.value_counts lib
                   (map (fun r : Dyn.row => r "JobRole") (Dyn.tech_rows v)))))]).
Proof.
  intros Hd Hc Hj Ht. unfold Dyn.tab1, Dyn.bind, Dyn.lift.
  rewrite dyn_emit_after, Hd, !dyn_emit_after, (getitem_ok v _ Hc).
  destruct (Dyn.tech_rows v) as [|r l] eqn:E; [now elim Ht|].
  unfold Dyn.getitem, Dyn.columns. cbn [Dyn.dtypes Dyn.rows].
  fold (Dyn.columns v). rewrite Hj. rewrite dyn_emit_after.
  now rewrite ?dyn_after_after.
Qed.

Lemma px_columns_ok (v : Dyn.DataFrame) (labels : list string) :
  (forall c, In c labels -> mem c (Dyn.columns v) = true) ->
  Dyn.px_columns v labels = Dyn.Ok tt.
Proof.
  intros H. unfold Dyn.px_columns.
  replace (forallb (fun c => mem c (Dyn.columns v)) labels) with true; [reflexivity|].
  symmetry. now apply forallb_forall.
Qed.

Lemma dyn_tab2_run (lib : Dyn.Pandas) (v : Dyn.DataFrame) (w : Dyn.world) :
  Dyn.has_columns v
    ["Gender"; "SalaryINR"; "YearsOfExperience"; "Department"; "JobRole"; "City"] = true ->
  Dyn.tab2 lib v w =
    (Dyn.Ok tt,
     Dyn.after w
       [Dyn.st_subheader "Gender Distribution";
        Dyn.st_plotly_chart
          (Dyn.pie_gender
             (Dyn.value_counts lib (map (fun r : Dyn.row => r "Gender") (Dyn.rows v))));
        Dyn.st_subheader "Salary Distribution";
        Dyn.st_plotly_chart
          (Dyn.histogram (map (fun r : Dyn.row => r "SalaryINR") (Dyn.rows v)) 30);
        Dyn.st_subheader "Salary vs. Years of Experience";
        Dyn.st_plotly_chart
          (Dyn.scatter
             (map (fun r : Dyn.row =>
                     (r "YearsOfExperience", r "SalaryINR", r "Department",
                      r "JobRole", r "City"))
                  (Dyn.rows v)))]).
Proof.
  intros Hc. unfold Dyn.tab2, Dyn.bind, Dyn.lift.
  rewrite dyn_emit_after.
  rewrite (getitem_ok v "Gender") by (apply (has_columns_mem v _ _ Hc); simpl; tauto).
  rewrite ?dyn_emit_after.
  rewrite (px_columns_ok v ["SalaryINR"])
    by (intros c Hin; apply (has_columns_mem v _ _ Hc); simpl in *; tauto).
  rewrite ?dyn_emit_after.
  rewrite (px_columns_ok v ["YearsOfExperience"; "SalaryINR"; "Department"; "JobRole"; "City"])
    by (intros c Hin; apply (has_columns_mem v _ _ Hc); simpl in *; tauto).
  rewrite ?dyn_emit_after. now rewrite ?dyn_after_after.
Qed.

Lemma dyn_tab3_warning (lib : Dyn.Pandas) (v : Dyn.DataFrame)
  (pick : option (list string)) (w : Dyn.world) :
  Dyn.multiselect_default (Dyn.numerical_cols v) (Dyn.default_cols v) pick = Dyn.Ok [] ->
  Dyn.tab3 lib v pick w =
    (Dyn.Ok tt,
     Dyn.after w
       [Dyn.st_subheader "Correlation Between Numerical Features";
        Dyn.st_warning "Please select at least one feature to display the heatmap."]).
Proof.
  intros H. unfold Dyn.tab3, Dyn.bind, Dyn.lift.
  rewrite dyn_emit_after, H, dyn_emit_after. now rewrite dyn_after_after.
Qed.

Lemma dyn_tab3_heatmap (lib : Dyn.Pandas) (v : Dyn.DataFrame)
  (pick : option (list string)) (w : Dyn.world)
  (cols : list string) (z : list (list float)) :
  Dyn.multiselect_default (Dyn.numerical_cols v) (Dyn.default_cols v) pick = Dyn.Ok cols ->
  cols <> [] ->
  Dyn.corr lib v cols = Dyn.Ok z ->
  Dyn.tab3 lib v pick w =
    (Dyn.Ok tt,
     Dyn.after w
       [Dyn.st_subheader "Correlation Between Numerical Features";
        Dyn.st_plotly_chart (Dyn.imshow cols z)]).
Proof.
  intros H Hne Hz. unfold Dyn.tab3, Dyn.bind, Dyn.lift.
  rewrite dyn_emit_after, H. destruct cols as [|c cs]; [now elim Hne|].
  rewrite Hz, dyn_emit_after. now rewrite dyn_after_after.
Qed.

Lemma dyn_raw_data_run (v : Dyn.DataFrame) (w : Dyn.world) :
  Dyn.raw_data v w =
    (Dyn.Ok tt,
     Dyn.after w
       [Dyn.st_subheader "Filtered Employee Data";
        Dyn.st_dataframe v;
        Dyn.st_download_button v]).
Proof.
  unfold Dyn.raw_data, Dyn.bind. rewrite ?dyn_emit_after.
  now rewrite ?dyn_after_after.
Qed.

(** The five parts of the analysis in sequence. *)
Lemma dyn_analysis_run (lib : Dyn.Pandas) (v : Dyn.DataFrame)
  (pick : option (list string)) (w : Dyn.world) (p1 p2 p3 p4 : list Dyn.element) :
  (forall w', Dyn.kpis lib v w' = (Dyn.Ok tt, Dyn.after w' p1)) ->
  (forall w', Dyn.tab1 lib v w' = (Dyn.Ok tt, Dyn.after w' p2)) ->
  (forall w', Dyn.tab2 lib v w' = (Dyn.Ok tt, Dyn.after w' p3)) ->
  (forall w', Dyn.tab3 lib v pick w' = (Dyn.Ok tt, Dyn.after w' p4)) ->
  Dyn.analysis lib v pick w =
    (Dyn.Ok tt,
     Dyn.after w
       (p1 ++ p2 ++ p3 ++ p4 ++
        [Dyn.st_subheader "Filtered Employee Data";
         Dyn.st_dataframe v;
         Dyn.st_download_button v])).
Proof.
  intros H1 H2 H3 H4. unfold Dyn.analysis, Dyn.bind.
  rewrite H1, H2, H3, H4, dyn_raw_data_run. now rewrite ?dyn_after_after.
Qed.

(** ** The correlation matrix *)

Lemma numerical_cols_In (v : Dyn.DataFrame) (c : string) :
  In c (Dyn.numerical_cols v) <->
  exists d : Dyn.dtype, In (c, d) (Dyn.dtypes v) /\ d <> Dyn.object.
Proof.
  unfold Dyn.numerical_cols. rewrite in_map_iff. split.
  - intros [[c' d] [E H]]. simpl in E. subst c'. apply filter_In in H.
    destruct H as [H1 H2]. exists d. split; [exact H1|].
    intros ->. discriminate H2.
  - intros [d [H1 H2]]. exists (c, d). split; [reflexivity|].
    apply filter_In. split; [exact H1|]. destruct d; try reflexivity. now elim H2.
Qed.

Lemma numerical_cols_columns (v : Dyn.DataFrame) (c : string) :
  In c (Dyn.numerical_cols v) -> mem c (Dyn.columns v) = true.
Proof.
  intros H. apply numerical_cols_In in H. destruct H as [d [H _]].
  apply mem_In. unfold Dyn.columns. apply in_map_iff. now exists (c, d).
Qed.

Lemma well_typed_numeric (v : Dyn.DataFrame) (c : string) (r : Dyn.row) :
  Dyn.well_typed v = true -> In c (Dyn.numerical_cols v) -> In r (Dyn.rows v) ->
  Dyn.is_str (r c) = false.
Proof.
  unfold Dyn.well_typed. rewrite forallb_forall. intros Hw Hc Hr.
  apply numerical_cols_In in Hc. destruct Hc as [d [Hd Hn]].
  specialize (Hw (c, d) Hd). simpl in Hw.
  destruct d; try (now elim Hn); simpl in Hw;
    rewrite forallb_forall in Hw; specialize (Hw r Hr);
    now apply negb_true_iff in Hw.
Qed.

Lemma getitems_numeric (v : Dyn.DataFrame) (cols : list string) :
  (forall c, In c cols -> In c (Dyn.numerical_cols v)) ->
  Dyn.getitems v cols =
    Dyn.Ok (map (fun c => map (fun r : Dyn.row => r c) (Dyn.rows v)) cols).
Proof.
  intros H. unfold Dyn.getitems. apply rmap_ok. intros c Hc.
  assert (Hn := H c Hc).
  rewrite (proj2 (mem_In c (Dyn.numerical_cols v)) Hn).
  apply getitem_ok. now apply numerical_cols_columns.
Qed.

Lemma complete_pairs_rows (l : list Dyn.row) (a b : string) :
  (forall r, In r l -> Dyn.is_str (r a) = false /\ Dyn.is_str (r b) = false) ->
  Dyn.complete_pairs (map (fun r : Dyn.row => r a) l) (map (fun r : Dyn.row => r b) l) =
    Dyn.Ok (flat_map (fun r : Dyn.row =>
                        match r a, r b with
                        | Dyn.VNum x, Dyn.VNum y => [(x, y)]
                        | _, _ => []
                        end) l).
Proof.
  induction l as [|r l IH]; intros H; simpl; [reflexivity|].
  rewrite IH by (intros r' Hr'; apply H; now right). simpl.
  destruct (H r (or_introl eq_refl)) as [Ha Hb].
  destruct (r a) as [s|x|], (r b) as [t|y|]; simpl in Ha, Hb;
    try discriminate; reflexivity.
Qed.

Lemma nth_column (v : Dyn.DataFrame) (cols : list string) (k : nat) :
  (k < List.length cols)%nat ->
  nth k (map (fun c => map (fun r : Dyn.row => r c) (Dyn.rows v)) cols) [] =
  map (fun r : Dyn.row => r (nth k cols "")) (Dyn.rows v).
Proof.
  intros Hk.
  rewrite (nth_indep _ [] (map (fun r : Dyn.row => r "") (Dyn.rows v)))
    by now rewrite length_map.
  apply (map_nth (fun c => map (fun r : Dyn.row => r c) (Dyn.rows v))).
Qed.

(** The matrix of [corr] over numeric columns of a view. *)
Lemma corr_numeric (lib : Dyn.Pandas) (v : Dyn.DataFrame) (cols : list string) :
  Dyn.well_typed v = true ->
  (forall c, In c cols -> In c (Dyn.numerical_cols v)) ->
  Dyn.corr lib v cols =
    Dyn.Ok
      (map (fun i =>
              map (fun j =>
                     match flat_map (fun r : Dyn.row =>
                                       match r (nth (Nat.max i j) cols ""),
                                             r (nth (Nat.min i j) cols "") with
                                       | Dyn.VNum x, Dyn.VNum y => [(x, y)]
                                       | _, _ => []
                                       end) (Dyn.rows v) with
                     | [] => nan
                     | p :: ps => Dyn.pearson64 lib (p :: ps)
                     end)
                  (seq 0 (List.length cols)))
           (seq 0 (List.length cols))).
Proof.
  intros Hw Hc. unfold Dyn.corr. rewrite (getitems_numeric v cols Hc).
  cbn [Dyn.rbind]. unfold Dyn.corr_matrix. rewrite length_map.
  apply rmap_ok. intros i Hi. apply rmap_ok. intros j Hj.
  apply in_seq in Hi. apply in_seq in Hj.
  assert (Hmax : (Nat.max i j < List.length cols)%nat) by lia.
  assert (Hmin : (Nat.min i j < List.length cols)%nat) by lia.
  rewrite (nth_column v cols _ Hmax), (nth_column v cols _ Hmin).
  unfold Dyn.corr_pair. rewrite complete_pairs_rows.
  - cbn [Dyn.rbind]. now destruct (flat_map _ (Dyn.rows v)).
  - intros r Hr. split; apply (well_typed_numeric v _ r Hw); auto;
      apply Hc; now apply nth_In.
Qed.

Lemma default_cols_filter (v : Dyn.DataFrame) :
  Dyn.default_cols v =
  filter (fun c => negb (String.eqb c "EmployeeID")
                   && negb (String.eqb c "AttritionNumeric"))
         (Dyn.numerical_cols v).
Proof.
  unfold Dyn.default_cols. apply filter_ext. intros c. unfold mem. simpl.
  destruct (String.eqb c "EmployeeID"), (String.eqb c "AttritionNumeric"); reflexivity.
Qed.

Lemma multiselect_default_some (options default cols : list string) :
  (forall c, In c cols -> In c options) ->
  Dyn.multiselect_default options default (Some cols) = Dyn.Ok cols.
Proof.
  intros H. unfold Dyn.multiselect_default.
  replace (forallb (fun c => mem c options) cols) with true; [reflexivity|].
  symmetry. apply forallb_forall. intros c Hc. apply mem_In. now apply H.
Qed.










(** ** The analysis of a view without rows *)

Lemma groupby_order_nil (lib : Dyn.Pandas) : Dyn.groupby_order lib [] = [].
Proof.
  apply Permutation_nil. apply Permutation_sym. apply Dyn.groupby_order_perm.
Qed.

Lemma value_counts_order_nil (lib : Dyn.Pandas) : Dyn.value_counts_order lib [] = [].
Proof.
  apply Permutation_nil. apply Permutation_sym. apply Dyn.value_counts_order_perm.
Qed.

Lemma attrition_dept_ok (lib : Dyn.Pandas) (v : Dyn.DataFrame) :
  mem "Department" (Dyn.columns v) = true ->
  mem "Attrition" (Dyn.columns v) = true ->
  Dyn.attrition_dept lib v =
    Dyn.Ok (map (fun k => (fst k, snd k, Dyn.group_size k (Dyn.rows v)))
                (Dyn.groupby_order lib (uniq Dyn.key_eqb (Dyn.group_keys (Dyn.rows v))))).
Proof.
  intros Hd Ha. unfold Dyn.attrition_dept.
  now rewrite (getitem_ok v _ Hd), (getitem_ok v _ Ha).
Qed.

Lemma map_const {X Y : Type} (c : Y) (l : list X) :
  map (fun _ => c) l = repeat c (List.length l).
Proof. induction l as [|x l IH]; simpl; [reflexivity | now rewrite IH]. Qed.

Lemma corr_no_rows (lib : Dyn.Pandas) (v : Dyn.DataFrame) (cols : list string) :
  Dyn.rows v = [] ->
  (forall c, In c cols -> In c (Dyn.numerical_cols v)) ->
  Dyn.corr lib v cols = Dyn.Ok (map (fun _ => map (fun _ => nan) cols) cols).
Proof.
  intros He Hc. rewrite corr_numeric; [|unfold Dyn.well_typed; rewrite He|exact Hc].
  - rewrite He. cbn [flat_map]. f_equal.
    rewrite (map_const (map (fun _ => nan) cols) cols).
    rewrite (map_const nan cols).
    rewrite (map_const (map (fun _ => nan) (seq 0 (List.length cols)))).
    rewrite (map_const nan (seq 0 (List.length cols))).
    now rewrite length_seq.
  - apply forallb_forall. intros cd _. apply orb_true_r.
Qed.

Lemma tech_rows_none (v : Dyn.DataFrame) :
  (forall r : Dyn.row, In r (Dyn.rows v) -> r "Department" <> Dyn.VStr "Technology") ->
  Dyn.tech_rows v = [].
Proof.
  intros H. unfold Dyn.tech_rows. apply filter_none. intros r Hr.
  specialize (H r Hr). unfold Dyn.value_eq_str.
  destruct (r "Department") as [s|x|]; try reflexivity.
  destruct (String.eqb s "Technology") eqn:E; [|reflexivity].
  apply String.eqb_eq in E. subst. now elim H.
Qed.

Lemma tech_rows_some (v : Dyn.DataFrame) (r : Dyn.row) :
  In r (Dyn.rows v) -> r "Department" = Dyn.VStr "Technology" ->
  Dyn.tech_rows v <> [].
Proof.
  intros Hr E H.
  assert (Hin : In r (Dyn.tech_rows v)).
  { unfold Dyn.tech_rows. apply filter_In. split; [exact Hr|]. now rewrite E. }
  rewrite H in Hin. destruct Hin.
Qed.

(** C6 (corrected): on a view that has the columns the script reads, with
    a numeric salary column, and a selection of numeric columns for the
    heatmap.  When the view has no row nothing raises; the page shows a
    total of 0, an attrition rate of 0, an average salary of NaN, the
    attrition chart, the gender chart, the histogram and the scatter plot
    without data, the no-data message in place of the role chart, and for
    the correlation the warning when no column is selected and otherwise a
    heatmap with one row and one column for each selected column and NaN
    in every entry.  When the view has rows but none of the Technology
    department, the no-data message is shown in place of the role chart;
    when it has a Technology row, the role chart is shown. *)
Theorem empty_view_analysis (lib : Dyn.Pandas) (v : Dyn.DataFrame)
  (pick : option (list string)) (cols : list string) (w : Dyn.world) :
  Dyn.has_columns v
    ["Attrition"; "SalaryINR"; "Department"; "Gender"; "YearsOfExperience";
     "JobRole"; "City"] = true ->
  (exists d : Dyn.dtype, Dyn.dtype_of v "SalaryINR" = Some d /\ d <> Dyn.object) ->
  (pick = None /\
   cols = filter (fun c => negb (String.eqb c "EmployeeID")
                           && negb (String.eqb c "AttritionNumeric"))
                 (map fst (filter (fun cd : string * Dyn.dtype =>
                                     match snd cd with Dyn.object => false | _ => true end)
                                  (Dyn.dtypes v)))) \/
  (pick = Some cols /\
   forall c, In c cols ->
     exists d : Dyn.dtype, In (c, d) (Dyn.dtypes v) /\ d <> Dyn.object) ->
  (Dyn.rows v = [] ->
   Dyn.analysis lib v pick w =
     (Dyn.Ok tt,
      Dyn.after w
        [Dyn.st_header "Key Performance Indicators";
         Dyn.st_metric "Total Employees" (Dyn.count_value 0);
         Dyn.st_metric "Attrition Rate" (Dyn.percent_value (fin 0));
         Dyn.st_metric "Average Salary (INR)" (Dyn.currency_value nan);
         Dyn.st_subheader "Attrition by Department";
         Dyn.st_plotly_chart (Dyn.bar_attrition []);
         Dyn.st_subheader "Job Roles in Technology Dept.";
         Dyn.st_info "No data available for the Technology department with the current filters.";
         Dyn.st_subheader "Gender Distribution";
         Dyn.st_plotly_chart (Dyn.pie_gender []);
         Dyn.st_subheader "Salary Distribution";
         Dyn.st_plotly_chart (Dyn.histogram [] 30);
         Dyn.st_subheader "Salary vs. Years of Experience";
         Dyn.st_plotly_chart (Dyn.scatter []);
         Dyn.st_subheader "Correlation Between Numerical Features";
         match cols with
         | [] => Dyn.st_warning "Please select at least one feature to display the heatmap."
         | _ :: _ =>
             Dyn.st_plotly_chart
               (Dyn.imshow cols (map (fun _ => map (fun _ => nan) cols) cols))
         end;
         Dyn.st_subheader "Filtered Employee Data";
         Dyn.st_dataframe v;
         Dyn.st_download_button v])) /\
  ((forall r : Dyn.row, In r (Dyn.rows v) -> r "Department" <> Dyn.VStr "Technology") ->
   exists data : list (Dyn.value * Dyn.value * nat),
     Dyn.tab1 lib v w =
       (Dyn.Ok tt,
        Dyn.after w
          [Dyn.st_subheader "Attrition by Department";
           Dyn.st_plotly_chart (Dyn.bar_attrition data);
           Dyn.st_subheader "Job Roles in Technology Dept.";
           Dyn.st_info "No data available for the Technology department with the current filters."])) /\
  ((exists r : Dyn.row, In r (Dyn.rows v) /\ r "Department" = Dyn.VStr "Technology") ->
   exists (data : list (Dyn.value * Dyn.value * nat)) (bars : list (Dyn.value * nat)),
     Dyn.tab1 lib v w =
       (Dyn.Ok tt,
        Dyn.after w
          [Dyn.st_subheader "Attrition by Department";
           Dyn.st_plotly_chart (Dyn.bar_attrition data);
           Dyn.st_subheader "Job Roles in Technology Dept.";
           Dyn.st_plotly_chart (Dyn.bar_roles bars)])).
Proof.
  intros Hcols [d [Hd Hn]] Hpick.
  assert (Hm : forall c,
             In c ["Attrition"; "SalaryINR"; "Department"; "Gender";
                   "YearsOfExperience"; "JobRole"; "City"] ->
             mem c (Dyn.columns v) = true)
    by (intros c; apply (has_columns_mem v _ c Hcols)).
  assert (Hdept := attrition_dept_ok lib v
                     (Hm "Department" ltac:(simpl; tauto))
                     (Hm "Attrition" ltac:(simpl; tauto))).
  split; [|split].
  - intros He.
    assert (Hsel : Dyn.multiselect_default (Dyn.numerical_cols v)
                     (Dyn.default_cols v) pick = Dyn.Ok cols /\
                   forall c, In c cols -> In c (Dyn.numerical_cols v)).
    { destruct Hpick as [[-> ->]|[-> Hc]].
      - split; [simpl; now rewrite default_cols_filter|].
        intros c Hc. apply filter_In in Hc. apply Hc.
      - assert (Hc' : forall c, In c cols -> In c (Dyn.numerical_cols v))
          by (intros c H; apply numerical_cols_In; now apply Hc).
        split; [now apply multiselect_default_some | exact Hc']. }
    destruct Hsel as [Hsel Hsub].
    rewrite (dyn_analysis_run lib v pick w
      [Dyn.st_header "Key Performance Indicators";
       Dyn.st_metric "Total Employees" (Dyn.count_value 0);
       Dyn.st_metric "Attrition Rate" (Dyn.percent_value (fin 0));
       Dyn.st_metric "Average Salary (INR)" (Dyn.currency_value nan)]
      [Dyn.st_subheader "Attrition by Department";
       Dyn.st_plotly_chart (Dyn.bar_attrition []);
       Dyn.st_subheader "Job Roles in Technology Dept.";
       Dyn.st_info "No data available for the Technology department with the current filters."]
      [Dyn.st_subheader "Gender Distribution";
       Dyn.st_plotly_chart (Dyn.pie_gender []);
       Dyn.st_subheader "Salary Distribution";
       Dyn.st_plotly_chart (Dyn.histogram [] 30);
       Dyn.st_subheader "Salary vs. Years of Experience";
       Dyn.st_plotly_chart (Dyn.scatter [])]
      [Dyn.st_subheader "Correlation Between Numerical Features";
       match cols with
       | [] => Dyn.st_warning "Please select at least one feature to display the heatmap."
       | _ :: _ =>
           Dyn.st_plotly_chart
             (Dyn.imshow cols (map (fun _ => map (fun _ => nan) cols) cols))
       end]); [reflexivity| | | |].
    + intros w'.
      assert (Ht : Dyn.total_employees v = 0)
        by (unfold Dyn.total_employees; now rewrite He).
      rewrite (dyn_kpis_run lib v w' 0 (fin 0) nan).
      * now rewrite Ht.
      * unfold Dyn.attrition_count.
        rewrite (getitem_ok v "Attrition") by (apply Hm; simpl; tauto).
        now rewrite He.
      * now rewrite Ht.
      * unfold Dyn.avg_salary.
        rewrite (getitem_ok v "SalaryINR") by (apply Hm; simpl; tauto).
        rewrite He, Hd. cbn [Dyn.rbind map Dyn.numbers].
        destruct d; try reflexivity. now elim Hn.
    + intros w'. apply dyn_tab1_info.
      * rewrite Hdept, He. cbn [Dyn.group_keys flat_map uniq].
        now rewrite groupby_order_nil.
      * apply Hm. simpl. tauto.
      * unfold Dyn.tech_rows. now rewrite He.
    + intros w'. rewrite dyn_tab2_run.
      * rewrite He. cbn [map]. unfold Dyn.value_counts. cbn [filter uniq map].
        now rewrite value_counts_order_nil.
      * apply forallb_forall. intros c Hc. apply Hm. simpl in *. tauto.
    + intros w'. destruct cols as [|c cs].
      * now apply dyn_tab3_warning.
      * apply dyn_tab3_heatmap; [exact Hsel | discriminate | now apply corr_no_rows].
  - intros Hno. eexists. apply dyn_tab1_info.
    + exact Hdept.
    + apply Hm. simpl. tauto.
    + now apply tech_rows_none.
  - intros [r [Hr E]]. eexists. eexists. apply dyn_tab1_chart.
    + exact Hdept.
    + apply Hm. simpl. tauto.
    + apply Hm. simpl. tauto.
    + now apply (tech_rows_some v r).
Qed.

Lemma empty_view_analysis_witness :
  Dyn.has_columns Dyn.empty_view
    ["Attrition"; "SalaryINR"; "Department"; "Gender"; "YearsOfExperience";
     "JobRole"; "City"] = true /\
  Dyn.dtype_of Dyn.empty_view "SalaryINR" = Some Dyn.int64 /\
  Dyn.analysis Dyn.sample_lib Dyn.empty_view (Some []) Dyn.blank =
    (Dyn.Ok tt,
     Dyn.after Dyn.blank
       [Dyn.st_header "Key Performance Indicators";
        Dyn.st_metric "Total Employees" (Dyn.count_value 0);
        Dyn.st_metric "Attrition Rate" (Dyn.percent_value (fin 0));
        Dyn.st_metric "Average Salary (INR)" (Dyn.currency_value nan);
        Dyn.st_subheader "Attrition by Department";
        Dyn.st_plotly_chart (Dyn.bar_attrition []);
        Dyn.st_subheader "Job Roles in Technology Dept.";
        Dyn.st_info "No data available for the Technology department with the current filters.";
        Dyn.st_subheader "Gender Distribution";
        Dyn.st_plotly_chart (Dyn.pie_gender []);
        Dyn.st_subheader "Salary Distribution";
        Dyn.st_plotly_chart (Dyn.histogram [] 30);
        Dyn.st_subheader "Salary vs. Years of Experience";
        Dyn.st_plotly_chart (Dyn.scatter []);
        Dyn.st_subheader "Correlation Between Numerical Features";
        Dyn.st_warning "Please select at least one feature to display the heatmap.";
        Dyn.st_subheader "Filtered Employee Data";
        Dyn.st_dataframe Dyn.empty_view;
        Dyn.st_download_button Dyn.empty_view]).
Proof.
  assert (H1 : Dyn.has_columns Dyn.empty_view
            ["Attrition"; "SalaryINR"; "Department"; "Gender"; "YearsOfExperience";
             "JobRole"; "City"] = true) by (vm_compute; reflexivity).
  assert (H2 : Dyn.dtype_of Dyn.empty_view "SalaryINR" = Some Dyn.int64)
    by (vm_compute; reflexivity).
  split; [exact H1|]. split; [exact H2|].
  assert (H3 : exists d : Dyn.dtype,
            Dyn.dtype_of Dyn.empty_view "SalaryINR" = Some d /\ d <> Dyn.object).
  { exists Dyn.int64. split; [exact H2 | discriminate]. }
  exact (proj1 (empty_view_analysis Dyn.sample_lib Dyn.empty_view (Some []) []
                  Dyn.blank H1 H3
                  (or_intror (conj eq_refl (fun c (H : In c []) => match H with end))))
               (eq_refl : Dyn.rows Dyn.empty_view = [])).
Defined.

(** On a view without rows the default selection gives a heatmap of two
    rows and two columns, and a view of a table without a salary column
    makes the script raise. *)
Lemma empty_view_heatmap_of_nan :
  Dyn.tab3 Dyn.sample_lib Dyn.empty_view None Dyn.blank =
    (Dyn.Ok tt,
     Dyn.after Dyn.blank
       [Dyn.st_subheader "Correlation Between Numerical Features";
        Dyn.st_plotly_chart
          (Dyn.imshow ["YearsOfExperience"; "SalaryINR"] [[nan; nan]; [nan; nan]])]) /\
  Dyn.rows Dyn.empty_view = [] /\
  Dyn.rows Dyn.no_salary_view = [] /\
  fst (Dyn.analysis Dyn.sample_lib Dyn.no_salary_view None Dyn.blank) =
    Dyn.Raise (Dyn.KeyError "SalaryINR").
Proof. repeat split; vm_compute; reflexivity. Qed.
